(** * pg_fts.aggregates: ranking aggregates for PostgreSQL full-text search

    A shallow embedding of [pg_fts/aggregates.py] (the four annotation
    classes [FTSRank], [FTSRankCd], [FTSRankDictionay], [FTSRankCdDictionary],
    their common [Aggregate.add_to_query], and the SQL renderer
    [AggregateRegister.as_sql]) together with the properties of the
    specification that concern them.

    Layout: the fragment of Python the module relies on (values, exceptions,
    [%]-formatting, [str.split], [str.join]), the collaborators (field,
    lookup, query), the classes of the module, the statements of the
    specification and sample inputs, and then the theorems: formatting,
    rendering, construction, attachment, and concrete runs. *)

From Stdlib Require Import ZArith Strings.String Strings.Ascii Numbers.DecimalString.
From Stdlib Require Import Numbers.DecimalZ Numbers.DecimalPos.
From stdpp Require Import base option list strings gmap fin_maps.

Local Open Scope string_scope.

(** ** The Python fragment *)

Module Py.

(** Values that travel through the module: keyword-argument values, the
    normalization iterable, prepared lookup parameters. Floats and
    dictionaries are not part of the fragment. *)
#[warnings="-register-all"]
Inductive val : Type :=
  | PyNone
  | PyBool (b : bool)
  | PyInt (z : Z)
  | PyStr (s : string)
  | PyTuple (l : list val)
  | PyList (l : list val).

(** Exceptions. The built-in ones carry no message except [AssertionError],
    whose message the module writes itself, and [KeyError], whose argument is
    the missing key. [FieldError] is django.core.exceptions.FieldError, the
    configuration error a field raises for an unknown transform. *)
Inductive exn : Type :=
  | AssertionError (msg : string)
  | TypeError
  | ValueError
  | KeyError (key : string)
  | IndexError
  | AttributeError
  | FieldError (msg : string).

(** The result of running a piece of Python: a value, a raised exception, or
    [Unmodelled] when the run leaves the fragment embedded here (a conversion
    of the format mini-language that is not [%s], [%d] or [%%]; [str()] of a
    container). [Unmodelled] says nothing about what Python does. *)
Inductive outcome (A : Type) : Type :=
  | Ok (a : A)
  | Raise (e : exn)
  | Unmodelled.
Arguments Ok {A} a.
Arguments Raise {A} e.
Arguments Unmodelled {A}.

#[global] Instance outcome_ret : MRet outcome := fun A a => Ok a.
#[global] Instance outcome_bind : MBind outcome := fun A B f m =>
  match m with
  | Ok a => f a
  | Raise e => Raise e
  | Unmodelled => Unmodelled
  end.
#[global] Instance outcome_fmap : FMap outcome := fun A B f m =>
  match m with
  | Ok a => Ok (f a)
  | Raise e => Raise e
  | Unmodelled => Unmodelled
  end.

(** Decimal rendering of an integer, as [str(i)] and ['%d' % i] print it. *)
Definition dec (z : Z) : string := NilZero.string_of_int (Z.to_int z).

(** [bool(v)]. *)
Definition truthy (v : val) : bool :=
  match v with
  | PyNone => false
  | PyBool b => b
  | PyInt z => negb (Z.eqb z 0)
  | PyStr s => negb (String.eqb s "")
  | PyTuple l | PyList l => match l with [] => false | _ => true end
  end.

(** The characters of a string, as iterating over a [str] yields them. *)
Fixpoint chars (s : string) : list string :=
  match s with
  | EmptyString => []
  | String c s' => String c EmptyString :: chars s'
  end.

(** [iter(v)], run to the end. *)
Definition iter (v : val) : outcome (list val) :=
  match v with
  | PyTuple l | PyList l => Ok l
  | PyStr s => Ok (PyStr <$> chars s)
  | PyNone | PyBool _ | PyInt _ => Raise TypeError
  end.

(** [str(v)]; the text of a container goes through [repr] of its elements,
    which differs between interpreter versions and is left out. *)
Definition str (v : val) : outcome string :=
  match v with
  | PyNone => Ok "None"
  | PyBool true => Ok "True"
  | PyBool false => Ok "False"
  | PyInt z => Ok (dec z)
  | PyStr s => Ok s
  | PyTuple _ | PyList _ => Unmodelled
  end.

(** The [%d] conversion: a number is required. *)
Definition int_conv (v : val) : outcome string :=
  match v with
  | PyInt z => Ok (dec z)
  | PyBool true => Ok "1"
  | PyBool false => Ok "0"
  | PyNone | PyStr _ | PyTuple _ | PyList _ => Raise TypeError
  end.

(** One conversion of the format mini-language applied to its argument. *)
Definition conv (c : ascii) (v : val) : outcome string :=
  if Ascii.eqb c "s" then str v
  else if Ascii.eqb c "d" then int_conv v
  else Unmodelled.

(** [s] followed by the character [c]. *)
Fixpoint snoc (s : string) (c : ascii) : string :=
  match s with
  | EmptyString => String c EmptyString
  | String a s' => String a (snoc s' c)
  end.

(** The scanner of [format % args] over the template, left to right:
    in plain text, just after a [%], inside a parenthesised mapping key
    (with the nesting depth and the key read so far), or after a key whose
    value has been fetched. *)
Inductive fstate : Type :=
  | FText
  | FPercent
  | FKey (depth : nat) (acc : string)
  | FConv (v : val).

(** [format % args]. [dict] is the mapping when the right operand is one;
    [strict] says whether arguments left over at the end are an error (they
    are for a tuple or a single value, not for a mapping or a list). *)
Fixpoint format_go (dict : option (gmap string val)) (strict : bool)
    (st : fstate) (args : list val) (tmpl : string) : outcome string :=
  match tmpl with
  | EmptyString =>
      match st with
      | FText =>
          match args with
          | [] => Ok ""
          | _ :: _ => if strict then Raise TypeError else Ok ""
          end
      | FPercent | FKey _ _ | FConv _ => Raise ValueError
      end
  | String c rest =>
      match st with
      | FText =>
          if Ascii.eqb c "%" then format_go dict strict FPercent args rest
          else String c <$> format_go dict strict FText args rest
      | FPercent =>
          if Ascii.eqb c "%" then String c <$> format_go dict strict FText args rest
          else if Ascii.eqb c "(" then
            match dict with
            | None => Raise TypeError
            | Some _ => format_go dict strict (FKey 0 "") args rest
            end
          else
            match dict with
            | Some _ => Unmodelled
            | None =>
                match args with
                | [] => if Ascii.eqb c "s" || Ascii.eqb c "d" then Raise TypeError else Unmodelled
                | a :: args' =>
                    s ← conv c a;
                    r ← format_go dict strict FText args' rest;
                    Ok (s +:+ r)
                end
            end
      | FKey depth acc =>
          if Ascii.eqb c ")" then
            match depth with
            | O =>
                match dict ≫= (.!! acc) with
                | None => Raise (KeyError acc)
                | Some v => format_go dict strict (FConv v) args rest
                end
            | S d => format_go dict strict (FKey d (snoc acc c)) args rest
            end
          else if Ascii.eqb c "(" then
            format_go dict strict (FKey (S depth) (snoc acc c)) args rest
          else format_go dict strict (FKey depth (snoc acc c)) args rest
      | FConv v =>
          s ← conv c v;
          r ← format_go dict strict FText args rest;
          Ok (s +:+ r)
      end
  end.

(** [tmpl % v] for a right operand that is not a dictionary. A tuple is the
    argument list; anything else is the single argument. *)
Definition mod_ (tmpl : string) (v : val) : outcome string :=
  match v with
  | PyTuple l => format_go None true FText l tmpl
  | PyList _ => format_go None false FText [v] tmpl
  | PyNone | PyBool _ | PyInt _ | PyStr _ => format_go None true FText [v] tmpl
  end.

(** [tmpl % d] for a dictionary [d]. *)
Definition mod_dict (tmpl : string) (d : gmap string val) : outcome string :=
  format_go (Some d) false FText [] tmpl.

(** [sep.join(l)] for a list of strings. *)
Definition join (sep : string) (l : list string) : string := String.concat sep l.

(** [s.split(sep)] for a non-empty separator: [skip] counts the characters
    of a separator occurrence still to be dropped, [cur] is the segment being
    read. Occurrences are found left to right and do not overlap. *)
Fixpoint split_go (sep : string) (skip : nat) (cur : string) (s : string) : list string :=
  match s with
  | EmptyString => [cur]
  | String c s' =>
      match skip with
      | S k => split_go sep k cur s'
      | O =>
          if String.prefix sep s
          then cur :: split_go sep (String.length sep - 1) "" s'
          else split_go sep 0 (snoc cur c) s'
      end
  end.

Definition split (sep : string) (s : string) : outcome (list string) :=
  if String.eqb sep "" then Raise ValueError else Ok (split_go sep 0 "" s).

(** [d[k]] on a dictionary. *)
Definition getitem (d : gmap string val) (k : string) : outcome val :=
  match d !! k with
  | Some v => Ok v
  | None => Raise (KeyError k)
  end.

(** [t[0]] on a sequence. *)
Definition first_item {A} (l : list A) : outcome A :=
  match l with
  | x :: _ => Ok x
  | [] => Raise IndexError
  end.

(** [a, b = l]: unpacking into exactly two targets. *)
Definition unpack2 {A} (l : list A) : outcome (A * A) :=
  match l with
  | [a; b] => Ok (a, b)
  | _ => Raise ValueError
  end.

(** The one-character string holding a double quote. *)
Definition dquote : string := String (Ascii.ascii_of_nat 34) EmptyString.

(** [s.lower()] on ASCII text, which is all the module applies it to (the
    [name] attributes of its classes). *)
Definition lower_ascii (c : ascii) : ascii :=
  let n := nat_of_ascii c in
  if (65 <=? n)%nat && (n <=? 90)%nat then ascii_of_nat (n + 32) else c.

Fixpoint lower (s : string) : string :=
  match s with
  | EmptyString => EmptyString
  | String c s' => String (lower_ascii c) (lower s')
  end.

(** Whether a text is free of [%], so that [%]-formatting copies it. *)
Fixpoint percent_free (s : string) : bool :=
  match s with
  | EmptyString => true
  | String c s' => negb (Ascii.eqb c "%") && percent_free s'
  end.

(** [l[-1]], [l[:-1]], [l[-2:]] and [l[:-2]] on a list. *)
Definition last_item {A} (l : list A) : outcome A :=
  match last l with
  | Some x => Ok x
  | None => Raise IndexError
  end.
Definition but_last {A} (l : list A) : list A := take (length l - 1) l.
Definition last_two {A} (l : list A) : list A := drop (length l - 2) l.
Definition but_last_two {A} (l : list A) : list A := take (length l - 2) l.

End Py.

Import Py.

(** ** Collaborators *)

(** django.db.models.constants.LOOKUP_SEP *)
Definition LOOKUP_SEP : string := "__".

(** A registered lookup class: the module reads its [lookup_sql] template. *)
Module Lookup.
Record t : Type := { lookup_sql : string }.
End Lookup.

(** The [source] argument of [add_to_query]: the resolved model field (a
    [pg_fts.fields.TSVectorField]). Its definition is outside this module,
    so the four members the module uses are taken as they are called:
    the default [dictionary], [get_transform] (which raises for a name that
    is not a registered transform; its result is discarded), [get_lookup]
    (which yields [None] for an unknown lookup name), and
    [_get_db_prep_lookup]. *)
Module Field.
Record t : Type := {
  dictionary : string;
  get_transform : string -> outcome unit;
  get_lookup : string -> outcome (option Lookup.t);
  _get_db_prep_lookup : string -> val -> outcome val
}.
End Field.

(** The output field of the computed column; the module always uses
    django's [FloatField()]. *)
Inductive output_field : Type := FloatField.

(** ** class AggregateRegister *)

Module AggregateRegister.

Record t : Type := {
  col : list string;
  source : option Field.t;
  sql_function : val;
  extra : gmap string val;
  field : output_field;
  params : val;
  normalization : val
}.

Definition is_ordinal : bool := false.
Definition is_computed : bool := true.
Definition sql_template : string :=
  "%(function)s(%(field_name)s, to_tsquery('%(dictionary)s', %(place)s)%(normalization)s)".

(** [__init__(self, col, source=None, sql_function=None, **extra)] *)
Definition init (col : list string) (source : option Field.t) (sql_function : val)
    (extra : gmap string val) : outcome t :=
  params ← getitem extra "params";
  normalization ← getitem extra "normalization_arr";
  Ok {| col := col; source := source; sql_function := sql_function;
        extra := extra; field := FloatField;
        params := params; normalization := normalization |}.

(** The local [normalization_params] of [as_sql]. *)
Definition normalization_params (normalization : val) : outcome string :=
  if truthy normalization then
    items ← iter normalization;
    parts ← mapM (mod_ "%d") items;
    Ok (", " +:+ join "|" parts)
  else Ok "".

(** [as_sql(self, qn, connection)]; [qn] is the compiler's quoting
    function, the connection is not used. *)
Definition as_sql (self : t) (qn : string -> string) : outcome (string * list val) :=
  let field_name := join "." (qn <$> col self) in
  normalization_params ← normalization_params (normalization self);
  let substitutions : gmap string val :=
    {[ "field_name" := PyStr (join "." (qn <$> col self));
       "function" := sql_function self;
       "place" := PyStr "%s";
       "normalization" := PyStr normalization_params ]} in
  (* substitutions.update(self.extra) *)
  let substitutions := extra self ∪ substitutions in
  sql ← mod_dict sql_template substitutions;
  Ok (sql, [params self]).

End AggregateRegister.

(** ** The query *)

(** Modelled from the spec: the query representation is django's
    [sql.Query], an external collaborator. Of it the module uses
    [add_extra] with only [where] and [params] given (one [ExtraWhere] node is
    AND-ed to the WHERE tree when either is non-empty), item assignment on
    the [aggregates] mapping, and [in]/[append] on the [group_by] list: a
    list once [annotate] has set up the grouping, which is the state
    modelled. A query that was never grouped holds [None] there, on which
    [in] raises [TypeError]; that state is left out. *)
Module Query.

Record ExtraWhere : Type := { sqls : list string; ew_params : list val }.

Record t : Type := {
  where_children : list ExtraWhere;
  aggregates : gmap string AggregateRegister.t;
  group_by : list (list string)
}.

Definition add_extra (where_ : list string) (params : list val) (q : t) : t :=
  match where_, params with
  | [], [] => q
  | _, _ =>
      {| where_children := where_children q ++ [ {| sqls := where_; ew_params := params |} ];
         aggregates := aggregates q;
         group_by := group_by q |}
  end.

Definition set_aggregate (alias : string) (a : AggregateRegister.t) (q : t) : t :=
  {| where_children := where_children q;
     aggregates := <[alias := a]> (aggregates q);
     group_by := group_by q |}.

Definition group_by_append (c : list string) (q : t) : t :=
  {| where_children := where_children q;
     aggregates := aggregates q;
     group_by := group_by q ++ [c] |}.

End Query.

(** ** class Aggregate and its four subclasses *)

(** The concrete classes. [FTSRankCd] and [FTSRankDictionay] derive from
    [FTSRank]; [FTSRankCdDictionary] derives from [FTSRankDictionay]. *)
Inductive cls : Type := FTSRank | FTSRankCd | FTSRankDictionay | FTSRankCdDictionary.

(** [cls.__name__] *)
Definition cls_name (c : cls) : string :=
  match c with
  | FTSRank => "FTSRank"
  | FTSRankCd => "FTSRankCd"
  | FTSRankDictionay => "FTSRankDictionay"
  | FTSRankCdDictionary => "FTSRankCdDictionary"
  end.

(** The class attribute [name], inherited along the hierarchy. *)
Definition name (c : cls) : string :=
  match c with
  | FTSRank => "FTSRank"
  | FTSRankCd => "FTSRankCd"
  | FTSRankDictionay => "FTSRank"
  | FTSRankCdDictionary => "FTSRankCdDictionary"
  end.

(** The class attribute [sql_function]. *)
Definition sql_function (c : cls) : string :=
  match c with
  | FTSRank => "ts_rank"
  | FTSRankCd => "ts_rank_cd"
  | FTSRankDictionay => "ts_rank"
  | FTSRankCdDictionary => "ts_rank_cd"
  end.

(** Whether the class parses the dictionary out of the lookup path. *)
Definition dictionary_aware (c : cls) : bool :=
  match c with
  | FTSRank | FTSRankCd => false
  | FTSRankDictionay | FTSRankCdDictionary => true
  end.

Module Aggregate.

(** An instance: its class and the instance attributes. [rhs],
    [dictionary] and [srt_lookup] start from the class attributes (empty
    strings) and are set by [__init__]. *)
Record t : Type := {
  class_ : cls;
  rhs : val;
  dictionary : string;
  srt_lookup : string;
  lookup : string;
  extra : gmap string val;
  normalization : val
}.

Definition set_dictionary (d : string) (self : t) : t :=
  {| class_ := class_ self; rhs := rhs self; dictionary := d;
     srt_lookup := srt_lookup self; lookup := lookup self;
     extra := extra self; normalization := normalization self |}.

Definition set_extra (e : gmap string val) (self : t) : t :=
  {| class_ := class_ self; rhs := rhs self; dictionary := dictionary self;
     srt_lookup := srt_lookup self; lookup := lookup self;
     extra := e; normalization := normalization self |}.

(** [_default_alias(self)], the property [default_alias]. *)
Definition default_alias (self : t) : outcome string :=
  mod_ "%s__%s" (PyTuple [PyStr (lookup self); PyStr (lower (name (class_ self)))]).

(** [add_to_query] mutates both [self] and [query] and may raise half way:
    it is a computation over the pair of the two objects that returns the
    pair as it stands when the call ends, normally or not. *)
Definition state : Type := t * Query.t.
Definition M (A : Type) : Type := state -> outcome A * state.

#[global] Instance M_ret : MRet M := fun A a s => (Ok a, s).
#[global] Instance M_bind : MBind M := fun A B f m s =>
  match m s with
  | (Ok a, s') => f a s'
  | (Raise e, s') => (Raise e, s')
  | (Unmodelled, s') => (Unmodelled, s')
  end.

Definition lift {A} (o : outcome A) : M A := fun s => (o, s).
Definition get_self : M t := fun s => (Ok s.1, s).
Definition get_query : M Query.t := fun s => (Ok s.2, s).
Definition upd_self (f : t -> t) : M unit := fun s => (Ok tt, (f s.1, s.2)).
Definition upd_query (f : Query.t -> Query.t) : M unit := fun s => (Ok tt, (s.1, f s.2)).

(** [add_to_query(self, query, alias, col, source, is_summary=False)] *)
Definition add_to_query (alias : string) (col : list string) (source : Field.t) : M unit :=
  self ← get_self;
  _ ← (if truthy (PyStr (dictionary self))
       then
         (* test for if is a valid transform, if not will raise error *)
         lift (Field.get_transform source (dictionary self))
       else upd_self (set_dictionary (Field.dictionary source)));
  self ← get_self;
  lookup ← lift (Field.get_lookup source (srt_lookup self));
  lookup_sql ← lift (match lookup with
                     | Some l => Ok (Lookup.lookup_sql l)
                     | None => Raise AttributeError
                     end);
  quoted ← lift (mapM (fun c => mod_ (dquote +:+ "%s" +:+ dquote) (PyStr c)) col);
  fts_query ← lift (mod_ lookup_sql
                      (PyTuple [PyStr (join "." quoted); PyStr (dictionary self); PyStr "%s"]));
  params ← lift (Field._get_db_prep_lookup source (srt_lookup self) (rhs self));
  _ ← upd_self (set_extra {[ "params" := params;
                             "dictionary" := PyStr (dictionary self);
                             "normalization_arr" := normalization self ]});
  where_ ← lift (mod_ fts_query (PyStr "%s"));
  _ ← upd_query (Query.add_extra [where_] [params]);
  self ← get_self;
  aggregate ← lift (AggregateRegister.init col (Some source)
                      (PyStr (sql_function (class_ self))) (extra self));
  _ ← upd_query (Query.set_aggregate alias aggregate);
  (* in case of related *)
  query ← get_query;
  if decide (col ∈ Query.group_by query) then mret tt
  else upd_query (Query.group_by_append col).

End Aggregate.

(** [FTSRank.__init__(self, **extra)], also run for [FTSRankCd]. The
    [assert] is taken as executed (the interpreter is not run with [-O]). *)
Definition FTSRank_init (c : cls) (kwargs : gmap string val) : outcome Aggregate.t :=
  (* extra.pop('normalization', []) *)
  let normalization := default (PyList []) (kwargs !! "normalization") in
  let extra := delete "normalization" kwargs in
  if decide (size extra = 1) then
    params ← first_item (map_to_list extra);
    lookups ← split LOOKUP_SEP params.1;
    let rhs := params.2 in
    srt_lookup ← last_item lookups;
    Ok {| Aggregate.class_ := c;
          Aggregate.rhs := rhs;
          Aggregate.dictionary := "";
          Aggregate.srt_lookup := srt_lookup;
          Aggregate.lookup := join LOOKUP_SEP (but_last lookups);
          Aggregate.extra := extra;
          Aggregate.normalization := normalization |}
  else
    msg ← mod_ "to many arguments for %s" (PyStr (cls_name c));
    Raise (AssertionError msg).

(** [FTSRankDictionay.__init__(self, **extra)], also run for
    [FTSRankCdDictionary]. *)
Definition FTSRankDictionay_init (c : cls) (kwargs : gmap string val) : outcome Aggregate.t :=
  let normalization := default (PyList []) (kwargs !! "normalization") in
  let extra := delete "normalization" kwargs in
  if decide (size extra = 1) then
    params ← first_item (map_to_list extra);
    let rhs := params.2 in
    lookups ← split LOOKUP_SEP params.1;
    '(dictionary, srt_lookup) ← unpack2 (last_two lookups);
    Ok {| Aggregate.class_ := c;
          Aggregate.rhs := rhs;
          Aggregate.dictionary := dictionary;
          Aggregate.srt_lookup := srt_lookup;
          Aggregate.lookup := join LOOKUP_SEP (but_last_two lookups);
          Aggregate.extra := extra;
          Aggregate.normalization := normalization |}
  else
    msg ← mod_ "to many arguments for %s" (PyStr (cls_name c));
    Raise (AssertionError msg).

(** Instantiating class [c] with keyword arguments [kwargs]: the
    [__init__] found along the method resolution order. *)
Definition new (c : cls) (kwargs : gmap string val) : outcome Aggregate.t :=
  match c with
  | FTSRank | FTSRankCd => FTSRank_init c kwargs
  | FTSRankDictionay | FTSRankCdDictionary => FTSRankDictionay_init c kwargs
  end.

(** ** What the specification says, in its own words *)

(** The normalization suffix as the specification words it: nothing for no
    flag, otherwise a comma and a blank, the first flag, and every further
    flag behind a bar. *)
Fixpoint spec_bar_tail (ns : list Z) : string :=
  match ns with
  | [] => ""
  | n :: rest => "|" +:+ dec n +:+ spec_bar_tail rest
  end.

Definition spec_suffix (ns : list Z) : string :=
  match ns with
  | [] => ""
  | n :: rest => ", " +:+ dec n +:+ spec_bar_tail rest
  end.

(** The ranking call of the specification (section 4.1). *)
Definition spec_rank_call (f qualified d suffix : string) : string :=
  f +:+ "(" +:+ qualified +:+ ", to_tsquery('" +:+ d +:+ "', %s)" +:+ suffix +:+ ")".

(** The keys of the substitution dictionary that [as_sql] fills in itself. *)
Definition template_keys : list string :=
  ["field_name"; "function"; "place"; "normalization"].

(** The column as [add_to_query] qualifies it for the WHERE fragment. *)
Definition quoted_col (col : list string) : string :=
  join "." ((fun c => dquote +:+ c +:+ dquote) <$> col).

(** The part of a query that re-attachment is claimed to duplicate: the
    number of WHERE nodes holding exactly the fragment [w], and the number
    of occurrences of the column in GROUP BY. *)
Definition where_copies (w : string) (q : Query.t) : nat :=
  length (filter (fun n => Query.sqls n = [w]) (Query.where_children q)).

Definition group_by_copies (c : list string) (q : Query.t) : nat :=
  length (filter (fun x => x = c) (Query.group_by q)).

(** What a successful [add_to_query] leaves behind, spelled out: the
    dictionary it settles on, the [extra] it stores on the instance, the
    expression it registers, and the query after the three mutations. *)
Definition resolved_dictionary (self : Aggregate.t) (source : Field.t) : string :=
  if truthy (PyStr (Aggregate.dictionary self)) then Aggregate.dictionary self
  else Field.dictionary source.

Definition attached_extra (self : Aggregate.t) (d : string) (params : val) : gmap string val :=
  {[ "params" := params;
     "dictionary" := PyStr d;
     "normalization_arr" := Aggregate.normalization self ]}.

Definition attached_self (self : Aggregate.t) (d : string) (params : val) : Aggregate.t :=
  Aggregate.set_extra (attached_extra self d params) (Aggregate.set_dictionary d self).

Definition registered_expression (self : Aggregate.t) (source : Field.t)
    (col : list string) (d : string) (params : val) : AggregateRegister.t :=
  {| AggregateRegister.col := col;
     AggregateRegister.source := Some source;
     AggregateRegister.sql_function := PyStr (sql_function (Aggregate.class_ self));
     AggregateRegister.extra := attached_extra self d params;
     AggregateRegister.field := FloatField;
     AggregateRegister.params := params;
     AggregateRegister.normalization := Aggregate.normalization self |}.

Definition attached_query (q : Query.t) (alias : string) (col : list string)
    (w : string) (params : val) (a : AggregateRegister.t) : Query.t :=
  {| Query.where_children :=
       Query.where_children q ++ [ {| Query.sqls := [w]; Query.ew_params := [params] |} ];
     Query.aggregates := <[alias := a]> (Query.aggregates q);
     Query.group_by :=
       if decide (col ∈ Query.group_by q) then Query.group_by q
       else Query.group_by q ++ [col] |}.

(** The conditions under which the collaborators let an attachment through:
    the transform check (when a dictionary is set), the lookup and its
    template filled with column, dictionary and placeholder, the prepared
    parameter, and the fragment run once more through [%]. *)
Definition attachable (self : Aggregate.t) (source : Field.t) (col : list string)
    (lk : Lookup.t) (fts_query w : string) (params : val) : Prop :=
  (truthy (PyStr (Aggregate.dictionary self)) = true ->
   Field.get_transform source (Aggregate.dictionary self) = Ok tt) /\
  Field.get_lookup source (Aggregate.srt_lookup self) = Ok (Some lk) /\
  mod_ (Lookup.lookup_sql lk)
    (PyTuple [PyStr (quoted_col col); PyStr (resolved_dictionary self source); PyStr "%s"])
  = Ok fts_query /\
  Field._get_db_prep_lookup source (Aggregate.srt_lookup self) (Aggregate.rhs self) = Ok params /\
  mod_ fts_query (PyStr "%s") = Ok w.

(** ** Sample collaborators and inputs

    The values the concrete runs below are made on: a field with a [search]
    lookup whose template is the one of the module's docstrings, a default
    dictionary and a list of dictionaries it accepts as transforms; a query
    that already groups by the primary key; the annotation of the docstring
    of [FTSRank]. *)

Definition sample_search : Lookup.t :=
  {| Lookup.lookup_sql := "%s @@ to_tsquery('%s', %s)" |}.

Definition sample_field (default : string) (dictionaries : list string) : Field.t :=
  {| Field.dictionary := default;
     Field.get_transform := fun name =>
       if bool_decide (name ∈ dictionaries) then Ok tt else Raise (FieldError name);
     Field.get_lookup := fun name =>
       if String.eqb name "search" then Ok (Some sample_search) else Ok None;
     Field._get_db_prep_lookup := fun _ value => Ok (PyTuple [value; PyStr "raw"]) |}.

Definition english_field : Field.t := sample_field "english" ["english"; "portuguese"].
Definition english_only_field : Field.t := sample_field "english" ["english"].
Definition portuguese_field : Field.t := sample_field "portuguese" ["english"; "portuguese"].

Definition sample_col : list string := ["article"; "fts_index"].

Definition sample_query : Query.t :=
  {| Query.where_children := [];
     Query.aggregates := ∅;
     Query.group_by := [["article"; "id"]] |}.

(** A quoting function without double quotes in its output, for readable
    expected texts. *)
Definition bracket_qn (s : string) : string := "[" +:+ s +:+ "]".

(** [FTSRank(fts_index__search='Hello world', normalization=[1, 2])] *)
Definition rank_kwargs : gmap string val :=
  {[ "fts_index__search" := PyStr "Hello world";
     "normalization" := PyList [PyInt 1; PyInt 2] ]}.

Definition rank_self : Aggregate.t :=
  {| Aggregate.class_ := FTSRank;
     Aggregate.rhs := PyStr "Hello world";
     Aggregate.dictionary := "";
     Aggregate.srt_lookup := "search";
     Aggregate.lookup := "fts_index";
     Aggregate.extra := {[ "fts_index__search" := PyStr "Hello world" ]};
     Aggregate.normalization := PyList [PyInt 1; PyInt 2] |}.

(** [FTSRankDictionay(fts_index__portuguese__search='Hello world')] *)
Definition portuguese_kwargs : gmap string val :=
  {[ "fts_index__portuguese__search" := PyStr "Hello world" ]}.

Definition portuguese_self : Aggregate.t :=
  {| Aggregate.class_ := FTSRankDictionay;
     Aggregate.rhs := PyStr "Hello world";
     Aggregate.dictionary := "portuguese";
     Aggregate.srt_lookup := "search";
     Aggregate.lookup := "fts_index";
     Aggregate.extra := portuguese_kwargs;
     Aggregate.normalization := PyList [] |}.

(** The WHERE fragment and the prepared parameter of these annotations on
    [sample_col]. *)
Definition sample_where (d : string) : string :=
  quoted_col sample_col +:+ " @@ to_tsquery('" +:+ d +:+ "', %s)".

Definition sample_params : val := PyTuple [PyStr "Hello world"; PyStr "raw"].

(** The claim that a second attachment of the instance doubles both the
    WHERE fragment [w] and the GROUP BY entry of the column. *)
Definition reattachment_duplicates_both (alias : string) (col : list string)
    (source : Field.t) (self : Aggregate.t) (q : Query.t) (w : string) : Prop :=
  let r1 := Aggregate.add_to_query alias col source (self, q) in
  let r2 := Aggregate.add_to_query alias col source r1.2 in
  r1.1 = Ok tt /\ r2.1 = Ok tt /\
  where_copies w r2.2.2 = 2 /\ group_by_copies col r2.2.2 = 2.

(** ** Reading back what the module writes

    Inverses and predicates used to state that the module's splitting and
    rendering lose nothing. They are not part of the module. *)

(** [s[n:]] *)
Fixpoint string_drop (n : nat) (s : string) : string :=
  match n, s with
  | O, _ => s
  | S _, EmptyString => EmptyString
  | S k, String _ s' => string_drop k s'
  end.

(** Whether the character [c] does not occur in [s]. *)
Fixpoint free_of (c : ascii) (s : string) : bool :=
  match s with
  | EmptyString => true
  | String a s' => negb (Ascii.eqb a c) && free_of c s'
  end.

(** [int(s)] on a decimal text. *)
Definition parse_dec (s : string) : option Z :=
  Z.of_int <$> NilZero.int_of_string s.

(** Reading a normalization suffix back into its flags: nothing for the
    empty suffix, otherwise the texts between the bars behind the comma
    and the blank. *)
Definition parse_suffix (s : string) : option (list Z) :=
  match s with
  | EmptyString => Some []
  | String a (String b rest) =>
      if Ascii.eqb a "," && Ascii.eqb b " "
      then mapM parse_dec (split_go "|" 0 EmptyString rest)
      else None
  | String _ EmptyString => None
  end.

(** What ['%d' % v] prints for an entry [v], when it prints: integers and
    booleans, bare or as the only element of a tuple; not [None], strings,
    lists and the other tuples. *)
Definition printed_d (v : val) : option string :=
  match v with
  | PyInt z | PyTuple [PyInt z] => Some (dec z)
  | PyBool b | PyTuple [PyBool b] => Some (if b then "1" else "0")
  | PyNone | PyStr _ | PyList _ | PyTuple _ => None
  end.

(** The instance [self] as an instance of class [c]. *)
Definition with_class (c : cls) (self : Aggregate.t) : Aggregate.t :=
  {| Aggregate.class_ := c;
     Aggregate.rhs := Aggregate.rhs self;
     Aggregate.dictionary := Aggregate.dictionary self;
     Aggregate.srt_lookup := Aggregate.srt_lookup self;
     Aggregate.lookup := Aggregate.lookup self;
     Aggregate.extra := Aggregate.extra self;
     Aggregate.normalization := Aggregate.normalization self |}.

(** The lower-cased [name] of each class, as [default_alias] appends it. *)
Definition alias_tag (c : cls) : string :=
  match c with
  | FTSRank | FTSRankDictionay => "ftsrank"
  | FTSRankCd => "ftsrankcd"
  | FTSRankCdDictionary => "ftsrankcddictionary"
  end.

(** An expression whose extra arguments name no dictionary, and one whose
    extra arguments carry a function name of their own. *)
Definition bare_expression : AggregateRegister.t :=
  {| AggregateRegister.col := sample_col;
     AggregateRegister.source := None;
     AggregateRegister.sql_function := PyStr "ts_rank";
     AggregateRegister.extra :=
       {[ "params" := sample_params; "normalization_arr" := PyList [PyInt 1] ]};
     AggregateRegister.field := FloatField;
     AggregateRegister.params := sample_params;
     AggregateRegister.normalization := PyList [PyInt 1] |}.

Definition overriding_expression : AggregateRegister.t :=
  {| AggregateRegister.col := sample_col;
     AggregateRegister.source := None;
     AggregateRegister.sql_function := PyStr "ts_rank";
     AggregateRegister.extra :=
       {[ "params" := sample_params; "normalization_arr" := PyList [PyInt 1];
          "dictionary" := PyStr "english"; "function" := PyStr "ts_rank_cd" ]};
     AggregateRegister.field := FloatField;
     AggregateRegister.params := sample_params;
     AggregateRegister.normalization := PyList [PyInt 1] |}.

(** [FTSRank(fts_index__contains='Hello world')]: a lookup name the sample
    fields do not register. *)
Definition contains_self : Aggregate.t :=
  {| Aggregate.class_ := FTSRank;
     Aggregate.rhs := PyStr "Hello world";
     Aggregate.dictionary := "";
     Aggregate.srt_lookup := "contains";
     Aggregate.lookup := "fts_index";
     Aggregate.extra := {[ "fts_index__contains" := PyStr "Hello world" ]};
     Aggregate.normalization := PyList [] |}.

(** ** Strings and formatting *)

Section Strings.

Lemma bind_ok {A B} (a : A) (k : A -> outcome B) : Ok a ≫= k = k a.
Proof. reflexivity. Qed.

Lemma append_empty_r (s : string) : s +:+ "" = s.
Proof.
  induction s as [|c s IH]; [reflexivity|].
  change (String c (s +:+ "") = String c s). by rewrite IH.
Qed.

Lemma mod_d_int (z : Z) : mod_ "%d" (PyInt z) = Ok (dec z).
Proof. cbn. by rewrite append_empty_r. Qed.

Lemma mod_assert_message (s : string) :
  mod_ "to many arguments for %s" (PyStr s) = Ok ("to many arguments for " +:+ s).
Proof. cbn. by rewrite append_empty_r. Qed.

Lemma mod_quote (c : string) :
  mod_ (dquote +:+ "%s" +:+ dquote) (PyStr c) = Ok (dquote +:+ c +:+ dquote).
Proof. reflexivity. Qed.


Lemma mapM_mod_d_ints (ns : list Z) :
  mapM (mod_ "%d") (PyInt <$> ns) = Ok (dec <$> ns).
Proof.
  induction ns as [|n ns IH]; [reflexivity|].
  change (mapM (mod_ "%d") (PyInt <$> n :: ns))
    with (mod_ "%d" (PyInt n) ≫= fun s =>
          mapM (mod_ "%d") (PyInt <$> ns) ≫= fun r => mret (s :: r)).
  by rewrite mod_d_int, IH.
Qed.


Lemma join_bar_tail (n : Z) (ns : list Z) :
  join "|" (dec <$> n :: ns) = dec n +:+ spec_bar_tail ns.
Proof.
  revert n. induction ns as [|m ns IH]; intros n.
  - cbn. by rewrite append_empty_r.
  - change (dec n +:+ "|" +:+ join "|" (dec <$> m :: ns)
            = dec n +:+ "|" +:+ dec m +:+ spec_bar_tail ns).
    by rewrite IH.
Qed.

Lemma fmap_compose {A B C} (f : A -> B) (g : B -> C) (m : outcome A) :
  g <$> (f <$> m) = (fun a => g (f a)) <$> m.
Proof. by destruct m. Qed.

(** Text without [%] in front of a template is copied to the output. *)
Lemma format_text_prefix (strict : bool) (args : list val) (a rest : string) :
  percent_free a = true ->
  format_go None strict FText args (a +:+ rest)
  = (fun r => a +:+ r) <$> format_go None strict FText args rest.
Proof.
  induction a as [|c a IH]; intros Hfree.
  - change ("" +:+ rest) with rest.
    destruct (format_go None strict FText args rest); reflexivity.
  - cbn in Hfree. apply andb_prop in Hfree as [Hc Ha].
    change (String c a +:+ rest) with (String c (a +:+ rest)).
    change (format_go None strict FText args (String c (a +:+ rest)))
      with (if Ascii.eqb c "%" then format_go None strict FPercent args (a +:+ rest)
            else String c <$> format_go None strict FText args (a +:+ rest)).
    destruct (Ascii.eqb c "%"); [discriminate|].
    rewrite (IH Ha), fmap_compose. reflexivity.
Qed.

(** The WHERE fragment for the lookup template of the module's docstrings:
    column and dictionary land in their places, and the second pass through
    [%] leaves the text as it is when neither holds a [%]. *)
Lemma search_predicate_text (qualified d : string) :
  mod_ "%s @@ to_tsquery('%s', %s)" (PyTuple [PyStr qualified; PyStr d; PyStr "%s"])
  = Ok (qualified +:+ " @@ to_tsquery('" +:+ d +:+ "', %s)") /\
  (percent_free qualified = true -> percent_free d = true ->
   mod_ (qualified +:+ " @@ to_tsquery('" +:+ d +:+ "', %s)") (PyStr "%s")
   = Ok (qualified +:+ " @@ to_tsquery('" +:+ d +:+ "', %s)")).
Proof.
  split; [reflexivity|]. intros Hq Hd. unfold mod_.
  rewrite (format_text_prefix true _ qualified _ Hq).
  rewrite (format_text_prefix true _ " @@ to_tsquery('" _ eq_refl).
  rewrite (format_text_prefix true _ d _ Hd).
  reflexivity.
Qed.

Lemma split_go_nonempty (sep : string) (skip : nat) (cur s : string) :
  split_go sep skip cur s <> [].
Proof.
  revert skip cur. induction s as [|c s IH]; intros skip cur.
  - discriminate.
  - change (split_go sep skip cur (String c s))
      with (match skip with
            | S k => split_go sep k cur s
            | O => if String.prefix sep (String c s)
                   then cur :: split_go sep (String.length sep - 1) "" s
                   else split_go sep 0 (snoc cur c) s
            end).
    destruct skip; [|apply IH].
    destruct (String.prefix sep (String c s)); [discriminate|apply IH].
Qed.

Lemma last_item_nonempty {A} (l : list A) : l <> [] -> exists x, last_item l = Ok x.
Proof.
  intros Hl. unfold last_item. destruct (last l) as [x|] eqn:E; [eauto|].
  by apply last_None in E.
Qed.

Lemma last_two_long {A} (l : list A) :
  2 <= length l -> exists a b, last_two l = [a; b].
Proof.
  intros Hl. unfold last_two.
  assert (length (drop (length l - 2) l) = 2) as Hd by (rewrite length_drop; lia).
  destruct (drop (length l - 2) l) as [|a [|b [|c r]]]; cbn in Hd; try lia. eauto.
Qed.

End Strings.

(** ** Dictionaries of keyword arguments *)

Section Kwargs.

Lemma size_one_singleton (m : gmap string val) :
  size m = 1 -> exists k v, m = {[k := v]}.
Proof.
  intros Hs. rewrite <- length_map_to_list in Hs.
  destruct (map_to_list m) as [|[k v] [|? ?]] eqn:E; cbn in Hs; try lia.
  exists k, v. rewrite <- (list_to_map_to_list m), E. reflexivity.
Qed.

Lemma singleton_items (k : string) (v : val) :
  first_item (map_to_list ({[k := v]} : gmap string val)) = Ok (k, v).
Proof. by rewrite map_to_list_singleton. Qed.

Lemma singleton_size (k : string) (v : val) :
  size ({[k := v]} : gmap string val) = 1.
Proof. apply map_size_singleton. Qed.

End Kwargs.

(** ** Rendering: [AggregateRegister.as_sql] *)

Section Rendering.

Import AggregateRegister.

Lemma normalization_params_ints (ns : list Z) :
  normalization_params (PyList (PyInt <$> ns)) = Ok (spec_suffix ns).
Proof.
  unfold normalization_params. destruct ns as [|n ns]; [reflexivity|].
  change (iter (PyList (PyInt <$> n :: ns)) ≫= fun items =>
          mapM (mod_ "%d") items ≫= fun parts => Ok (", " +:+ join "|" parts))
    with (mapM (mod_ "%d") (PyInt <$> n :: ns) ≫= fun parts =>
          Ok (", " +:+ join "|" parts)).
  rewrite mapM_mod_d_ints.
  change (Ok (", " +:+ join "|" (dec <$> n :: ns)) = Ok (", " +:+ dec n +:+ spec_bar_tail ns)).
  by rewrite join_bar_tail.
Qed.

Lemma normalization_params_tuple (ns : list Z) :
  normalization_params (PyTuple (PyInt <$> ns)) = normalization_params (PyList (PyInt <$> ns)).
Proof. reflexivity. Qed.

(** The template filled from a dictionary that holds its five keys. *)
Lemma format_sql_template (m : gmap string val) (f fld d pl nz : string) :
  m !! "function" = Some (PyStr f) ->
  m !! "field_name" = Some (PyStr fld) ->
  m !! "dictionary" = Some (PyStr d) ->
  m !! "place" = Some (PyStr pl) ->
  m !! "normalization" = Some (PyStr nz) ->
  mod_dict sql_template m
  = Ok (f +:+ "(" +:+ fld +:+ ", to_tsquery('" +:+ d +:+ "', " +:+ pl +:+ ")" +:+ nz +:+ ")").
Proof.
  intros Hf Hfld Hd Hpl Hnz. unfold mod_dict, sql_template.
  cbn -[lookup]. rewrite Hf. cbn -[lookup]. rewrite Hfld. cbn -[lookup]. rewrite Hd.
  cbn -[lookup]. rewrite Hpl. cbn -[lookup]. rewrite Hnz. reflexivity.
Qed.

(** Rendering an expression whose extra arguments name the dictionary and
    leave the keys of the template alone. *)
Lemma as_sql_text (self : t) (qn : string -> string) (f d sfx : string) :
  sql_function self = PyStr f ->
  extra self !! "dictionary" = Some (PyStr d) ->
  Forall (fun k => extra self !! k = None) template_keys ->
  normalization_params (normalization self) = Ok sfx ->
  as_sql self qn
  = Ok (spec_rank_call f (join "." (qn <$> col self)) d sfx, [params self]).
Proof.
  intros Hf Hd Hfree Hn.
  apply Forall_cons in Hfree as [Hk1 Hfree]. apply Forall_cons in Hfree as [Hk2 Hfree].
  apply Forall_cons in Hfree as [Hk3 Hfree]. apply Forall_cons in Hfree as [Hk4 _].
  unfold as_sql. rewrite Hn, bind_ok. cbv beta zeta.
  rewrite (format_sql_template _ f (join "." (qn <$> col self)) d "%s" sfx);
    [reflexivity| | | | |].
  - rewrite lookup_union_r by exact Hk2. rewrite Hf. by simplify_map_eq.
  - rewrite lookup_union_r by exact Hk1. by simplify_map_eq.
  - by apply lookup_union_Some_l.
  - rewrite lookup_union_r by exact Hk3. by simplify_map_eq.
  - rewrite lookup_union_r by exact Hk4. by simplify_map_eq.
Qed.

(** C1. Every rank expression built from a function name [f], a column
    [col], a prepared parameter [p], a normalization value [N] that renders
    to the suffix [sfx], and a dictionary [d] -- that is, from extra
    arguments that hold [params], [normalization_arr] and [dictionary] and
    none of the template's own keys -- renders to the single call
    [f(<qn c1>. ... .<qn cn>, to_tsquery('d', %s)sfx)], and the bound
    parameters are the one-element list holding [p] itself. *)
Theorem as_sql_rank_call (col : list string) (src : option Field.t) (f d sfx : string)
    (p N : val) (extra : gmap string val) (qn : string -> string) :
  extra !! "params" = Some p ->
  extra !! "normalization_arr" = Some N ->
  extra !! "dictionary" = Some (PyStr d) ->
  Forall (fun k => extra !! k = None) template_keys ->
  normalization_params N = Ok sfx ->
  exists self,
    init col src (PyStr f) extra = Ok self /\
    as_sql self qn
    = Ok (f +:+ "(" +:+ join "." (qn <$> col)
            +:+ ", to_tsquery('" +:+ d +:+ "', %s)" +:+ sfx +:+ ")", [p]).
Proof.
  intros Hp HN Hd Hfree Hsfx. unfold init, getitem. rewrite Hp, HN.
  eexists. split; [reflexivity|].
  by rewrite (as_sql_text _ qn f d sfx).
Qed.

(** C2. For every list of integers [n1, ..., nk] given as normalization
    flags (a list or a tuple), the suffix rendered inside the ranking call
    is empty when [k = 0] and is [, n1|n2|...|nk], flags in their order,
    otherwise. *)
Theorem normalization_suffix (ns : list Z) (self : t) (qn : string -> string) (f d : string) :
  normalization_params (PyList (PyInt <$> ns)) = Ok (spec_suffix ns) /\
  normalization_params (PyTuple (PyInt <$> ns)) = Ok (spec_suffix ns) /\
  (normalization self = PyList (PyInt <$> ns) ->
   sql_function self = PyStr f ->
   extra self !! "dictionary" = Some (PyStr d) ->
   Forall (fun k => extra self !! k = None) template_keys ->
   fst <$> as_sql self qn
   = Ok (f +:+ "(" +:+ join "." (qn <$> col self)
           +:+ ", to_tsquery('" +:+ d +:+ "', %s)" +:+ spec_suffix ns +:+ ")")).
Proof.
  split; [apply normalization_params_ints|].
  split; [rewrite normalization_params_tuple; apply normalization_params_ints|].
  intros HN Hf Hd Hfree.
  rewrite (as_sql_text self qn f d (spec_suffix ns)); [reflexivity|done..|].
  rewrite HN. apply normalization_params_ints.
Qed.

End Rendering.

(** ** Construction: the four [__init__] *)

Section Construction.

(** Both [__init__] start alike: pop [normalization], then assert that one
    keyword argument is left. *)
Lemma new_assertion (c : cls) (kwargs : gmap string val) :
  size (delete "normalization" kwargs) <> 1 ->
  new c kwargs = Raise (AssertionError ("to many arguments for " +:+ cls_name c)).
Proof.
  intros Hs.
  assert (forall body : outcome Aggregate.t,
    (if decide (size (delete "normalization" kwargs) = 1) then body
     else mod_ "to many arguments for %s" (PyStr (cls_name c)) ≫= fun msg =>
          Raise (AssertionError msg))
    = Raise (AssertionError ("to many arguments for " +:+ cls_name c))) as Hbranch.
  { intros body. destruct (decide _) as [|_]; [done|]. by rewrite mod_assert_message. }
  destruct c; unfold new, FTSRank_init, FTSRankDictionay_init; apply Hbranch.
Qed.

(** [FTSRank.__init__] on one keyword argument [k=v]. *)
Lemma FTSRank_init_one (c : cls) (kwargs : gmap string val) (k : string) (v : val) :
  delete "normalization" kwargs = {[k := v]} ->
  exists srt_lookup,
    last_item (split_go LOOKUP_SEP 0 "" k) = Ok srt_lookup /\
    FTSRank_init c kwargs
    = Ok {| Aggregate.class_ := c;
            Aggregate.rhs := v;
            Aggregate.dictionary := "";
            Aggregate.srt_lookup := srt_lookup;
            Aggregate.lookup := join LOOKUP_SEP (but_last (split_go LOOKUP_SEP 0 "" k));
            Aggregate.extra := {[k := v]};
            Aggregate.normalization := default (PyList []) (kwargs !! "normalization") |}.
Proof.
  intros He.
  destruct (last_item_nonempty (split_go LOOKUP_SEP 0 "" k)) as [x Hx];
    [apply split_go_nonempty|].
  exists x. split; [done|].
  unfold FTSRank_init. rewrite He, singleton_size.
  destruct (decide (1 = 1)) as [_|]; [|done].
  rewrite singleton_items, bind_ok.
  change (split LOOKUP_SEP (k, v).1) with (Ok (A:=list string) (split_go LOOKUP_SEP 0 "" k)).
  rewrite bind_ok. cbv zeta. by rewrite Hx.
Qed.

(** [FTSRankDictionay.__init__] on one keyword argument [k=v]. *)
Lemma FTSRankDictionay_init_one (c : cls) (kwargs : gmap string val) (k : string) (v : val) :
  delete "normalization" kwargs = {[k := v]} ->
  FTSRankDictionay_init c kwargs
  = unpack2 (last_two (split_go LOOKUP_SEP 0 "" k)) ≫= fun '(dictionary, srt_lookup) =>
    Ok {| Aggregate.class_ := c;
          Aggregate.rhs := v;
          Aggregate.dictionary := dictionary;
          Aggregate.srt_lookup := srt_lookup;
          Aggregate.lookup := join LOOKUP_SEP (but_last_two (split_go LOOKUP_SEP 0 "" k));
          Aggregate.extra := {[k := v]};
          Aggregate.normalization := default (PyList []) (kwargs !! "normalization") |}.
Proof.
  intros He. unfold FTSRankDictionay_init. rewrite He, singleton_size.
  destruct (decide (1 = 1)) as [_|]; [|done].
  rewrite singleton_items, bind_ok. cbv zeta.
  change (split LOOKUP_SEP (k, v).1) with (Ok (A:=list string) (split_go LOOKUP_SEP 0 "" k)).
  by rewrite bind_ok.
Qed.


(** C9. For the dictionary-aware classes a keyword whose name has a single
    segment -- no [__] in it -- makes construction fail with the
    [ValueError] of the two-target unpacking, not with the
    [AssertionError] of the argument count. *)
Theorem one_segment_path_unpacking_error (c : cls) (kwargs : gmap string val)
    (k segment : string) (v : val) :
  dictionary_aware c = true ->
  delete "normalization" kwargs = {[k := v]} ->
  split LOOKUP_SEP k = Ok [segment] ->
  new c kwargs = Raise ValueError /\
  (forall msg, new c kwargs <> Raise (AssertionError msg)).
Proof.
  intros Hc He Hseg.
  assert (split_go LOOKUP_SEP 0 "" k = [segment]) as Hgo.
  { unfold split in Hseg. cbn in Hseg. congruence. }
  assert (new c kwargs = Raise ValueError) as Hnew.
  { assert (forall c', FTSRankDictionay_init c' kwargs = Raise ValueError) as Hdict.
    { intros c'. by rewrite (FTSRankDictionay_init_one c' kwargs k v He), Hgo. }
    destruct c; try discriminate; unfold new; apply Hdict. }
  split; [done|]. intros msg. rewrite Hnew. discriminate.
Qed.

(** C4, as the code has it. With no keyword argument besides
    [normalization], or with two or more, construction of any of the four
    classes fails with the [AssertionError]; with exactly one it succeeds
    for [FTSRank] and [FTSRankCd], and for the two dictionary-aware classes
    whenever the keyword's name has at least two segments. *)
Theorem single_argument_contract (c : cls) (kwargs : gmap string val) :
  (size (delete "normalization" kwargs) <> 1 ->
   new c kwargs = Raise (AssertionError ("to many arguments for " +:+ cls_name c))) /\
  (size (delete "normalization" kwargs) = 1 ->
   dictionary_aware c = false ->
   exists self, new c kwargs = Ok self) /\
  (forall k v segments,
   delete "normalization" kwargs = {[k := v]} ->
   dictionary_aware c = true ->
   split LOOKUP_SEP k = Ok segments ->
   2 <= length segments ->
   exists self, new c kwargs = Ok self).
Proof.
  split; [apply new_assertion|]. split.
  - intros Hs Hc. destruct (size_one_singleton _ Hs) as (k & v & He).
    assert (forall c', exists self, FTSRank_init c' kwargs = Ok self) as Hplain.
    { intros c'. destruct (FTSRank_init_one c' kwargs k v He) as (x & _ & E). eauto. }
    destruct c; try discriminate; unfold new; apply Hplain.
  - intros k v segments He Hc Hseg Hlen.
    assert (split_go LOOKUP_SEP 0 "" k = segments) as Hgo.
    { unfold split in Hseg. cbn in Hseg. congruence. }
    destruct (last_two_long segments Hlen) as (a & b & Hab).
    assert (forall c', exists self, FTSRankDictionay_init c' kwargs = Ok self) as Hdict.
    { intros c'. rewrite (FTSRankDictionay_init_one c' kwargs k v He), Hgo, Hab. cbn. eauto. }
    destruct c; try discriminate; unfold new; apply Hdict.
Qed.

End Construction.

(** ** Attachment: [Aggregate.add_to_query] *)

Section Attachment.

Import Aggregate.

Lemma quoted_ok (col : list string) :
  mapM (fun c => mod_ (dquote +:+ "%s" +:+ dquote) (PyStr c)) col
  = Ok ((fun c => dquote +:+ c +:+ dquote) <$> col).
Proof.
  induction col as [|c col IH]; [reflexivity|].
  change (mapM (fun c => mod_ (dquote +:+ "%s" +:+ dquote) (PyStr c)) (c :: col))
    with (mod_ (dquote +:+ "%s" +:+ dquote) (PyStr c) ≫= fun s =>
          mapM (fun c => mod_ (dquote +:+ "%s" +:+ dquote) (PyStr c)) col ≫= fun r =>
          mret (s :: r)).
  by rewrite mod_quote, IH.
Qed.

Lemma set_dictionary_same (self : t) : set_dictionary (dictionary self) self = self.
Proof. by destruct self. Qed.

Lemma attached_extra_params self d p : attached_extra self d p !! "params" = Some p.
Proof. unfold attached_extra. by simplify_map_eq. Qed.

Lemma attached_extra_normalization self d p :
  attached_extra self d p !! "normalization_arr" = Some (normalization self).
Proof. unfold attached_extra. by simplify_map_eq. Qed.

Lemma attached_extra_dictionary self d p :
  attached_extra self d p !! "dictionary" = Some (PyStr d).
Proof. unfold attached_extra. by simplify_map_eq. Qed.

Lemma attached_extra_free self d p :
  Forall (fun k => attached_extra self d p !! k = None) template_keys.
Proof. unfold attached_extra, template_keys. repeat constructor; by simplify_map_eq. Qed.

Lemma init_registered (self : t) (source : Field.t) (col : list string) (d : string) (p : val) :
  AggregateRegister.init col (Some source) (PyStr (sql_function (class_ self)))
    (attached_extra self d p)
  = Ok (registered_expression self source col d p).
Proof.
  unfold AggregateRegister.init, getitem.
  by rewrite attached_extra_params, attached_extra_normalization.
Qed.

(** A failing transform check stops the call before anything is touched. *)
Lemma add_to_query_transform_raises alias col source self q e :
  truthy (PyStr (dictionary self)) = true ->
  Field.get_transform source (dictionary self) = Raise e ->
  add_to_query alias col source (self, q) = (Raise e, (self, q)).
Proof.
  intros Ht Hg.
  cbv [add_to_query mbind M_bind lift get_self get_query upd_self upd_query mret M_ret fst snd].
  by rewrite Ht, Hg.
Qed.

(** The run of [add_to_query] once the dictionary is settled and the
    collaborators answer. *)
Lemma add_to_query_ok alias col source self q lk fts_query w params :
  attachable self source col lk fts_query w params ->
  add_to_query alias col source (self, q)
  = (Ok tt,
     (attached_self self (resolved_dictionary self source) params,
      attached_query q alias col w params
        (registered_expression self source col (resolved_dictionary self source) params))).
Proof.
  intros (Hgt & Hlk & Hfts & Hp & Hw). unfold resolved_dictionary in *.
  cbv [add_to_query mbind M_bind lift get_self get_query upd_self upd_query mret M_ret fst snd].
  destruct (truthy (PyStr (dictionary self))) eqn:Ht.
  - rewrite (Hgt eq_refl), Hlk, quoted_ok. fold (quoted_col col). rewrite Hfts, Hp, Hw.
    change (extra (set_extra ?e _)) with e.
    change (class_ (set_extra _ ?s)) with (class_ s).
    fold (attached_extra self (dictionary self) params). rewrite init_registered.
    unfold attached_self. rewrite set_dictionary_same.
    unfold attached_query, Query.set_aggregate, Query.add_extra, Query.group_by_append.
    cbn [Query.group_by Query.where_children Query.aggregates].
    by destruct (decide (col ∈ Query.group_by q)).
  - change (srt_lookup (set_dictionary _ ?s)) with (srt_lookup s).
    change (rhs (set_dictionary _ ?s)) with (rhs s).
    change (dictionary (set_dictionary ?d _)) with d.
    change (normalization (set_dictionary _ ?s)) with (normalization s).
    rewrite Hlk, quoted_ok. fold (quoted_col col). rewrite Hfts, Hp, Hw.
    change (extra (set_extra ?e _)) with e.
    change (class_ (set_extra _ (set_dictionary _ ?s))) with (class_ s).
    fold (attached_extra self (Field.dictionary source) params). rewrite init_registered.
    unfold attached_self.
    unfold attached_query, Query.set_aggregate, Query.add_extra, Query.group_by_append.
    cbn [Query.group_by Query.where_children Query.aggregates].
    by destruct (decide (col ∈ Query.group_by q)).
Qed.

(** The same run for a field whose lookup carries the template of the
    docstrings: the WHERE fragment is [<column> @@ to_tsquery('<d>', %s)]. *)
Lemma add_to_query_search alias col source self q params :
  (truthy (PyStr (dictionary self)) = true ->
   Field.get_transform source (dictionary self) = Ok tt) ->
  Field.get_lookup source (srt_lookup self) = Ok (Some sample_search) ->
  Field._get_db_prep_lookup source (srt_lookup self) (rhs self) = Ok params ->
  percent_free (quoted_col col) = true ->
  percent_free (resolved_dictionary self source) = true ->
  add_to_query alias col source (self, q)
  = (Ok tt,
     (attached_self self (resolved_dictionary self source) params,
      attached_query q alias col
        (quoted_col col +:+ " @@ to_tsquery('" +:+ resolved_dictionary self source +:+ "', %s)")
        params
        (registered_expression self source col (resolved_dictionary self source) params))).
Proof.
  intros Hgt Hlk Hp Hcol Hd.
  destruct (search_predicate_text (quoted_col col) (resolved_dictionary self source))
    as [Hfts Hw].
  apply (add_to_query_ok alias col source self q sample_search
           (quoted_col col +:+ " @@ to_tsquery('" +:+ resolved_dictionary self source
              +:+ "', %s)")).
  unfold attachable. repeat split; auto.
Qed.

(** Conversely, a call that returns went through every collaborator. *)
Lemma add_to_query_ok_inv alias col source self q u self' q' :
  add_to_query alias col source (self, q) = (Ok u, (self', q')) ->
  exists lk fts_query w params, attachable self source col lk fts_query w params.
Proof.
  unfold attachable, resolved_dictionary.
  cbv [add_to_query mbind M_bind lift get_self get_query upd_self upd_query mret M_ret fst snd].
  destruct (truthy (PyStr (dictionary self))) eqn:Ht.
  - destruct (Field.get_transform source (dictionary self)) as [[]|e|] eqn:Hgt;
      [|discriminate..].
    destruct (Field.get_lookup source (srt_lookup self)) as [[lk|]|e|] eqn:Hlk;
      [|discriminate..].
    rewrite quoted_ok. fold (quoted_col col).
    destruct (mod_ (Lookup.lookup_sql lk) _) as [fts_query|e|] eqn:Hfts; [|discriminate..].
    destruct (Field._get_db_prep_lookup source _ _) as [params|e|] eqn:Hp; [|discriminate..].
    destruct (mod_ fts_query (PyStr "%s")) as [w|e|] eqn:Hw; [|discriminate..].
    intros _. by exists lk, fts_query, w, params.
  - change (srt_lookup (set_dictionary _ ?s)) with (srt_lookup s).
    change (rhs (set_dictionary _ ?s)) with (rhs s).
    change (dictionary (set_dictionary ?d _)) with d.
    destruct (Field.get_lookup source (srt_lookup self)) as [[lk|]|e|] eqn:Hlk;
      [|discriminate..].
    rewrite quoted_ok. fold (quoted_col col).
    destruct (mod_ (Lookup.lookup_sql lk) _) as [fts_query|e|] eqn:Hfts; [|discriminate..].
    destruct (Field._get_db_prep_lookup source _ _) as [params|e|] eqn:Hp; [|discriminate..].
    destruct (mod_ fts_query (PyStr "%s")) as [w|e|] eqn:Hw; [|discriminate..].
    intros _. exists lk, fts_query, w, params. by repeat split.
Qed.

(** A call that returns, described in full. *)
Lemma add_to_query_returns alias col source self q u self' q' :
  add_to_query alias col source (self, q) = (Ok u, (self', q')) ->
  exists lk fts_query w params,
    attachable self source col lk fts_query w params /\
    self' = attached_self self (resolved_dictionary self source) params /\
    q' = attached_query q alias col w params
           (registered_expression self source col (resolved_dictionary self source) params).
Proof.
  intros Hrun.
  destruct (add_to_query_ok_inv _ _ _ _ _ _ _ _ Hrun) as (lk & fts_query & w & params & Hatt).
  exists lk, fts_query, w, params. split; [done|].
  rewrite (add_to_query_ok alias col source self q lk fts_query w params Hatt) in Hrun.
  by injection Hrun as _ <- <-.
Qed.

(** However the call ends, it leaves the instance with the dictionary it
    settled on and with its other constructor-set attributes as they were. *)
Lemma add_to_query_frame alias col source self q :
  let self' := (add_to_query alias col source (self, q)).2.1 in
  dictionary self' = resolved_dictionary self source /\
  class_ self' = class_ self /\
  lookup self' = lookup self /\
  rhs self' = rhs self /\
  srt_lookup self' = srt_lookup self /\
  normalization self' = normalization self.
Proof.
  unfold resolved_dictionary.
  cbv [add_to_query mbind M_bind lift get_self get_query upd_self upd_query mret M_ret fst snd].
  destruct (truthy (PyStr (dictionary self))) eqn:Ht.
  - destruct (Field.get_transform source (dictionary self)) as [[]|e|]; [|done..].
    destruct (Field.get_lookup source (srt_lookup self)) as [[lk|]|e|]; [|done..].
    rewrite quoted_ok.
    destruct (mod_ (Lookup.lookup_sql lk) _) as [fts_query|e|]; [|done..].
    destruct (Field._get_db_prep_lookup source _ _) as [params|e|]; [|done..].
    destruct (mod_ fts_query (PyStr "%s")) as [w|e|]; [|done..].
    destruct (AggregateRegister.init _ _ _ _) as [a|e|]; [|done..].
    by destruct (decide _).
  - change (srt_lookup (set_dictionary _ ?s)) with (srt_lookup s).
    change (rhs (set_dictionary _ ?s)) with (rhs s).
    change (dictionary (set_dictionary ?d _)) with d.
    destruct (Field.get_lookup source (srt_lookup self)) as [[lk|]|e|]; [|done..].
    rewrite quoted_ok.
    destruct (mod_ (Lookup.lookup_sql lk) _) as [fts_query|e|]; [|done..].
    destruct (Field._get_db_prep_lookup source _ _) as [params|e|]; [|done..].
    destruct (mod_ fts_query (PyStr "%s")) as [w|e|]; [|done..].
    destruct (AggregateRegister.init _ _ _ _) as [a|e|]; [|done..].
    by destruct (decide _).
Qed.

(** All or nothing on the query: a call that does not return normally
    leaves the query as it was (every step that can fail comes before
    [add_extra]). The instance may already carry the inferred dictionary
    and the new [extra]. *)
Lemma add_to_query_all_or_nothing alias col source self q :
  (exists u, (add_to_query alias col source (self, q)).1 = Ok u) \/
  (add_to_query alias col source (self, q)).2.2 = q.
Proof.
  cbv [add_to_query mbind M_bind lift get_self get_query upd_self upd_query mret M_ret fst snd].
  destruct (truthy (PyStr (dictionary self))) eqn:Ht.
  - destruct (Field.get_transform source (dictionary self)) as [[]|e|]; [|by right..].
    destruct (Field.get_lookup source (srt_lookup self)) as [[lk|]|e|]; [|by right..].
    rewrite quoted_ok.
    destruct (mod_ (Lookup.lookup_sql lk) _) as [fts_query|e|]; [|by right..].
    destruct (Field._get_db_prep_lookup source _ _) as [params|e|]; [|by right..].
    destruct (mod_ fts_query (PyStr "%s")) as [w|e|]; [|by right..].
    change (extra (set_extra ?e _)) with e.
    change (class_ (set_extra _ ?s)) with (class_ s).
    fold (attached_extra self (dictionary self) params). rewrite init_registered.
    left. exists tt. by destruct (decide _).
  - change (srt_lookup (set_dictionary _ ?s)) with (srt_lookup s).
    change (rhs (set_dictionary _ ?s)) with (rhs s).
    change (dictionary (set_dictionary ?d _)) with d.
    change (normalization (set_dictionary _ ?s)) with (normalization s).
    destruct (Field.get_lookup source (srt_lookup self)) as [[lk|]|e|]; [|by right..].
    rewrite quoted_ok.
    destruct (mod_ (Lookup.lookup_sql lk) _) as [fts_query|e|]; [|by right..].
    destruct (Field._get_db_prep_lookup source _ _) as [params|e|]; [|by right..].
    destruct (mod_ fts_query (PyStr "%s")) as [w|e|]; [|by right..].
    change (extra (set_extra ?e _)) with e.
    change (class_ (set_extra _ (set_dictionary _ ?s))) with (class_ s).
    fold (attached_extra self (Field.dictionary source) params). rewrite init_registered.
    left. exists tt. by destruct (decide _).
Qed.

Lemma truthy_str (d : string) : d <> "" -> truthy (PyStr d) = true.
Proof.
  intros Hd. cbn. destruct (String.eqb_spec d ""); [done|reflexivity].
Qed.

Lemma resolved_dictionary_of_attached self d p source' :
  resolved_dictionary (attached_self self d p) source'
  = if truthy (PyStr d) then d else Field.dictionary source'.
Proof. reflexivity. Qed.

Lemma resolved_dictionary_attached self source p :
  resolved_dictionary (attached_self self (resolved_dictionary self source) p) source
  = resolved_dictionary self source.
Proof.
  rewrite resolved_dictionary_of_attached.
  destruct (truthy (PyStr (resolved_dictionary self source))) eqn:Ht; [done|].
  unfold resolved_dictionary in *.
  destruct (truthy (PyStr (dictionary self))) eqn:Hs; [congruence|done].
Qed.

Lemma group_by_copies_app (c : list string) (l : list (list string)) :
  length (filter (fun x => x = c) (l ++ [c])%list) = S (length (filter (fun x => x = c) l)).
Proof.
  rewrite filter_app, length_app. cbn.
  rewrite decide_True by done. cbn. lia.
Qed.

Lemma group_by_copies_elem (c : list string) (l : list (list string)) :
  c ∈ l <-> 1 <= length (filter (fun x => x = c) l).
Proof.
  induction l as [|x l IH].
  - cbn. split; [by intros ?%elem_of_nil|lia].
  - rewrite filter_cons. destruct (decide (x = c)) as [->|Hne].
    + cbn. split; [lia|intros _; apply list_elem_of_here].
    + rewrite <- IH. rewrite elem_of_cons. split; [intros [?|?]; [congruence|done]|by right].
Qed.

(** C3. When the instance carries an explicit dictionary name and the
    field's [get_transform] raises for it, [add_to_query] raises that very
    error and leaves the query exactly as it was -- no WHERE node, no entry
    under the alias, GROUP BY as before -- and the instance too. *)
Theorem unknown_dictionary_attaches_nothing (self : t) (source : Field.t) (q : Query.t)
    (alias : string) (col : list string) (e : exn) :
  dictionary self <> "" ->
  Field.get_transform source (dictionary self) = Raise e ->
  add_to_query alias col source (self, q) = (Raise e, (self, q)).
Proof.
  intros Hd Hraise. apply add_to_query_transform_raises; [by apply truthy_str|done].
Qed.

(** C6. An instance without a dictionary of its own, attached to a field
    whose default dictionary is [d], is attached with [d]: the WHERE
    fragment is the lookup's template filled with [d], the expression
    registered under the alias carries [d] and renders [to_tsquery('d', %s)],
    and the instance remembers [d]. *)
Theorem default_dictionary_inferred (self : t) (source : Field.t) (q : Query.t)
    (alias : string) (col : list string) (lk : Lookup.t) (fts_query w : string) (params : val) :
  dictionary self = "" ->
  attachable self source col lk fts_query w params ->
  exists self' q' a,
    add_to_query alias col source (self, q) = (Ok tt, (self', q')) /\
    dictionary self' = Field.dictionary source /\
    mod_ (Lookup.lookup_sql lk)
      (PyTuple [PyStr (quoted_col col); PyStr (Field.dictionary source); PyStr "%s"])
    = Ok fts_query /\
    last (Query.where_children q') = Some {| Query.sqls := [w]; Query.ew_params := [params] |} /\
    Query.aggregates q' !! alias = Some a /\
    AggregateRegister.extra a !! "dictionary" = Some (PyStr (Field.dictionary source)) /\
    (forall qn sfx,
       AggregateRegister.normalization_params (normalization self) = Ok sfx ->
       AggregateRegister.as_sql a qn
       = Ok (spec_rank_call (sql_function (class_ self)) (join "." (qn <$> col))
               (Field.dictionary source) sfx, [params])).
Proof.
  intros Hd Hatt.
  assert (resolved_dictionary self source = Field.dictionary source) as Hres.
  { unfold resolved_dictionary. by rewrite Hd. }
  pose proof (add_to_query_ok alias col source self q lk fts_query w params Hatt) as Hrun.
  destruct Hatt as (_ & _ & Hfts & _ & _). rewrite Hres in Hrun, Hfts.
  eexists _, _, _. split; [exact Hrun|].
  split; [reflexivity|]. split; [exact Hfts|].
  split; [apply last_snoc|].
  split; [apply lookup_insert_eq|].
  split; [apply attached_extra_dictionary|].
  intros qn sfx Hsfx.
  apply (as_sql_text (registered_expression self source col (Field.dictionary source) params));
    [reflexivity|apply attached_extra_dictionary|apply attached_extra_free|exact Hsfx].
Qed.

(** C7. Two attachments over the same column, of any two instances against
    any fields, add the column to GROUP BY exactly once: whenever the
    collaborators let both through, both calls return, the first appends
    the column unless it is there, the second finds it and appends nothing;
    so a GROUP BY that held the column at most once holds it exactly once,
    and one that did not hold it holds it as its last entry. *)
Theorem group_by_added_once (s1 s2 : t) (src1 src2 : Field.t) (a1 a2 : string)
    (c : list string) (q : Query.t)
    (lk1 lk2 : Lookup.t) (f1 w1 f2 w2 : string) (p1 p2 : val) :
  attachable s1 src1 c lk1 f1 w1 p1 ->
  attachable s2 src2 c lk2 f2 w2 p2 ->
  exists s1' q1 s2' q2,
    add_to_query a1 c src1 (s1, q) = (Ok tt, (s1', q1)) /\
    add_to_query a2 c src2 (s2, q1) = (Ok tt, (s2', q2)) /\
    Query.group_by q1
    = (if decide (c ∈ Query.group_by q) then Query.group_by q
       else (Query.group_by q ++ [c])%list) /\
    Query.group_by q2 = Query.group_by q1 /\
    (c ∉ Query.group_by q -> Query.group_by q2 = (Query.group_by q ++ [c])%list) /\
    (group_by_copies c q <= 1 -> group_by_copies c q2 = 1).
Proof.
  intros Hatt1 Hatt2.
  pose proof (add_to_query_ok a1 c src1 s1 q lk1 f1 w1 p1 Hatt1) as H1.
  pose proof (add_to_query_ok a2 c src2 s2
                (attached_query q a1 c w1 p1
                   (registered_expression s1 src1 c (resolved_dictionary s1 src1) p1))
                lk2 f2 w2 p2 Hatt2) as H2.
  eexists _, _, _, _. split; [exact H1|]. split; [exact H2|].
  assert (c ∈ (if decide (c ∈ Query.group_by q) then Query.group_by q
               else (Query.group_by q ++ [c])%list)) as Hin.
  { destruct (decide (c ∈ Query.group_by q)); [done|]. apply elem_of_app. right.
    apply list_elem_of_here. }
  assert (Query.group_by
            (attached_query
               (attached_query q a1 c w1 p1
                  (registered_expression s1 src1 c (resolved_dictionary s1 src1) p1))
               a2 c w2 p2 (registered_expression s2 src2 c (resolved_dictionary s2 src2) p2))
          = (if decide (c ∈ Query.group_by q) then Query.group_by q
             else (Query.group_by q ++ [c])%list)) as G2.
  { cbn [attached_query Query.group_by]. by rewrite (decide_True _ _ Hin). }
  split; [reflexivity|]. split; [by rewrite G2|]. split.
  - intros Hc. rewrite G2. by rewrite (decide_False _ _ Hc).
  - unfold group_by_copies. rewrite G2. intros Hle.
    destruct (decide (c ∈ Query.group_by q)) as [Hc|Hc].
    + apply group_by_copies_elem in Hc. lia.
    + rewrite group_by_copies_app.
      destruct (length (filter (fun x => x = c) (Query.group_by q))) as [|n] eqn:En; [done|].
      exfalso. apply Hc, group_by_copies_elem. lia.
Qed.

(** C8, as the code has it. Attaching the same instance a second time to
    the same query (same alias, column and field) adds a second copy of the
    same WHERE node; the column is not added to GROUP BY again, the entry
    under the alias is overwritten by an equal expression, and the instance
    stays as the first attachment left it. *)
Theorem reattachment_duplicates_where_only (self self1 self2 : t) (source : Field.t)
    (alias : string) (col : list string) (q q1 q2 : Query.t) (u1 u2 : unit) :
  add_to_query alias col source (self, q) = (Ok u1, (self1, q1)) ->
  add_to_query alias col source (self1, q1) = (Ok u2, (self2, q2)) ->
  exists node,
    Query.where_children q1 = (Query.where_children q ++ [node])%list /\
    Query.where_children q2 = (Query.where_children q ++ [node; node])%list /\
    Query.group_by q2 = Query.group_by q1 /\
    group_by_copies col q2 = group_by_copies col q1 /\
    Query.aggregates q2 = Query.aggregates q1 /\
    self2 = self1.
Proof.
  intros H1 H2.
  destruct (add_to_query_returns _ _ _ _ _ _ _ _ H1) as (lk & f & w & p & Hatt & -> & ->).
  destruct (add_to_query_returns _ _ _ _ _ _ _ _ H2) as (lk' & f' & w' & p' & Hatt' & -> & ->).
  pose proof (resolved_dictionary_attached self source p) as Hres.
  rewrite !Hres.
  destruct Hatt as (_ & Hlk & Hf & Hp & Hw). destruct Hatt' as (_ & Hlk' & Hf' & Hp' & Hw').
  rewrite Hres in Hf'.
  cbn [attached_self set_extra set_dictionary srt_lookup rhs] in Hlk', Hp'.
  assert (lk' = lk) as -> by congruence. assert (p' = p) as -> by congruence.
  assert (f' = f) as -> by congruence. assert (w' = w) as -> by congruence.
  exists {| Query.sqls := [w]; Query.ew_params := [p] |}.
  assert (col ∈ (if decide (col ∈ Query.group_by q) then Query.group_by q
                 else (Query.group_by q ++ [col])%list)) as Hin.
  { destruct (decide (col ∈ Query.group_by q)); [done|]. apply elem_of_app. right.
    apply list_elem_of_here. }
  unfold group_by_copies. cbn [attached_query Query.group_by Query.where_children Query.aggregates].
  rewrite (decide_True _ _ Hin).
  split; [done|]. split; [by rewrite <- app_assoc|]. split; [done|]. split; [done|].
  split; [|reflexivity].
  rewrite insert_insert_eq. reflexivity.
Qed.

(** C10. Attaching an instance that has no dictionary of its own to a
    field with a non-empty default stores that default on the instance,
    whether or not the call then completes, and leaves [lookup], [rhs],
    [srt_lookup] and [normalization] alone. A later attachment of the same
    instance, to whatever field, goes through [get_transform] with the
    stored name: it raises when that field rejects the name, and otherwise
    keeps and registers the stored name, not that field's default. *)
Theorem attachment_stores_inferred_dictionary (self : t) (source1 : Field.t) (q : Query.t)
    (alias : string) (col : list string) :
  dictionary self = "" ->
  Field.dictionary source1 <> "" ->
  let self1 := (add_to_query alias col source1 (self, q)).2.1 in
  dictionary self1 = Field.dictionary source1 /\
  lookup self1 = lookup self /\ rhs self1 = rhs self /\
  srt_lookup self1 = srt_lookup self /\ normalization self1 = normalization self /\
  forall (source2 : Field.t) (q2 : Query.t) (alias2 : string) (col2 : list string),
    (forall e, Field.get_transform source2 (Field.dictionary source1) = Raise e ->
       add_to_query alias2 col2 source2 (self1, q2) = (Raise e, (self1, q2))) /\
    (forall u self2 q2',
       add_to_query alias2 col2 source2 (self1, q2) = (Ok u, (self2, q2')) ->
       Field.get_transform source2 (Field.dictionary source1) = Ok tt /\
       dictionary self2 = Field.dictionary source1 /\
       lookup self2 = lookup self /\ rhs self2 = rhs self /\
       srt_lookup self2 = srt_lookup self /\ normalization self2 = normalization self /\
       exists a,
         Query.aggregates q2' !! alias2 = Some a /\
         AggregateRegister.extra a !! "dictionary" = Some (PyStr (Field.dictionary source1))).
Proof.
  intros Hd Hd1 self1.
  destruct (add_to_query_frame alias col source1 self q) as (Hdict & _ & Hl & Hr & Hs & Hn).
  fold self1 in Hdict, Hl, Hr, Hs, Hn.
  assert (dictionary self1 = Field.dictionary source1) as Hdict1.
  { rewrite Hdict. unfold resolved_dictionary. by rewrite Hd. }
  do 5 (split; [done|]).
  intros source2 q2 alias2 col2.
  assert (truthy (PyStr (dictionary self1)) = true) as Ht by (rewrite Hdict1; by apply truthy_str).
  assert (resolved_dictionary self1 source2 = Field.dictionary source1) as Hres.
  { unfold resolved_dictionary. by rewrite Ht. }
  split.
  - intros e He. apply add_to_query_transform_raises; [done|by rewrite Hdict1].
  - intros u self2 q2' Hrun.
    destruct (add_to_query_frame alias2 col2 source2 self1 q2) as (Hdict2 & _ & Hl2 & Hr2 & Hs2 & Hn2).
    rewrite Hrun in Hdict2, Hl2, Hr2, Hs2, Hn2. cbn [fst snd] in Hdict2, Hl2, Hr2, Hs2, Hn2.
    destruct (add_to_query_returns _ _ _ _ _ _ _ _ Hrun)
      as (lk & f & w & p & (Hgt & _) & _ & ->).
    split; [rewrite <- Hdict1; by apply Hgt|].
    split; [congruence|]. do 4 (split; [congruence|]).
    eexists. split; [apply lookup_insert_eq|].
    rewrite Hres. apply attached_extra_dictionary.
Qed.

End Attachment.

(** ** Normalization from construction to rendering *)

Section EndToEnd.



End EndToEnd.

(** ** Concrete runs *)

Section Runs.

Example split_three : split LOOKUP_SEP "fts_index__portuguese__search"
                      = Ok ["fts_index"; "portuguese"; "search"].
Proof. reflexivity. Qed.

Example split_leftmost : split LOOKUP_SEP "a___b__" = Ok ["a"; "_b"; ""].
Proof. reflexivity. Qed.

Example dec_examples : dec 0 = "0" /\ dec 12 = "12" /\ dec (-5) = "-5".
Proof. repeat split; reflexivity. Qed.

Example rank_default_alias : Aggregate.default_alias rank_self = Ok "fts_index__ftsrank".
Proof. reflexivity. Qed.

Example new_rank : new FTSRank rank_kwargs = Ok rank_self.
Proof. vm_compute. reflexivity. Qed.

Example new_portuguese : new FTSRankDictionay portuguese_kwargs = Ok portuguese_self.
Proof. vm_compute. reflexivity. Qed.

Example rank_attachable :
  attachable rank_self english_field sample_col sample_search
    (sample_where "english") (sample_where "english") sample_params.
Proof. unfold attachable. split; [vm_compute; discriminate|repeat split; reflexivity]. Qed.

Example portuguese_attachable :
  attachable portuguese_self english_field sample_col sample_search
    (sample_where "portuguese") (sample_where "portuguese") sample_params.
Proof. unfold attachable. split; [reflexivity|repeat split; reflexivity]. Qed.

(** The annotation of the docstring, rendered with square-bracket quoting. *)
Example rank_rendered :
  AggregateRegister.as_sql
    (registered_expression rank_self english_field sample_col "english" sample_params)
    bracket_qn
  = Ok ("ts_rank([article].[fts_index], to_tsquery('english', %s), 1|2)", [sample_params]).
Proof. vm_compute. reflexivity. Qed.

Lemma as_sql_rank_call_witness :
  exists self,
    AggregateRegister.init sample_col None (PyStr "ts_rank")
      {[ "params" := sample_params; "normalization_arr" := PyList [PyInt 1; PyInt 4];
         "dictionary" := PyStr "english" ]} = Ok self /\
    AggregateRegister.as_sql self bracket_qn
    = Ok ("ts_rank" +:+ "(" +:+ join "." (bracket_qn <$> sample_col)
            +:+ ", to_tsquery('" +:+ "english" +:+ "', %s)" +:+ ", 1|4" +:+ ")",
          [sample_params]).
Proof.
  apply (as_sql_rank_call sample_col None "ts_rank" "english" ", 1|4" sample_params
           (PyList [PyInt 1; PyInt 4])).
  - vm_compute. reflexivity.
  - vm_compute. reflexivity.
  - vm_compute. reflexivity.
  - repeat constructor; vm_compute; reflexivity.
  - vm_compute. reflexivity.
Defined.

Lemma normalization_suffix_witness :
  AggregateRegister.normalization_params (PyList [PyInt 1; PyInt 4]) = Ok ", 1|4" /\
  fst <$> AggregateRegister.as_sql
            (registered_expression rank_self english_field sample_col "english" sample_params)
            bracket_qn
  = Ok ("ts_rank" +:+ "(" +:+ join "." (bracket_qn <$> sample_col)
          +:+ ", to_tsquery('" +:+ "english" +:+ "', %s)" +:+ spec_suffix [1; 2]%Z +:+ ")").
Proof.
  split.
  - exact (proj1 (normalization_suffix [1; 4]%Z
                    (registered_expression rank_self english_field sample_col "english"
                       sample_params) bracket_qn "ts_rank" "english")).
  - apply (proj2 (proj2 (normalization_suffix [1; 2]%Z
                    (registered_expression rank_self english_field sample_col "english"
                       sample_params) bracket_qn "ts_rank" "english"))).
    + reflexivity.
    + reflexivity.
    + vm_compute. reflexivity.
    + repeat constructor; vm_compute; reflexivity.
Defined.

Lemma unknown_dictionary_attaches_nothing_witness :
  Aggregate.dictionary portuguese_self <> "" /\
  Field.get_transform english_only_field (Aggregate.dictionary portuguese_self)
  = Raise (FieldError "portuguese") /\
  Aggregate.add_to_query "rank" sample_col english_only_field (portuguese_self, sample_query)
  = (Raise (FieldError "portuguese"), (portuguese_self, sample_query)).
Proof.
  assert (Aggregate.dictionary portuguese_self <> "") as H1 by (vm_compute; discriminate).
  assert (Field.get_transform english_only_field (Aggregate.dictionary portuguese_self)
          = Raise (FieldError "portuguese")) as H2 by (vm_compute; reflexivity).
  split; [exact H1|]. split; [exact H2|].
  exact (unknown_dictionary_attaches_nothing portuguese_self english_only_field sample_query
           "rank" sample_col (FieldError "portuguese") H1 H2).
Defined.

Lemma default_dictionary_inferred_witness :
  exists self' q' a,
    Aggregate.add_to_query "rank" sample_col english_field (rank_self, sample_query)
    = (Ok tt, (self', q')) /\
    Aggregate.dictionary self' = "english" /\
    last (Query.where_children q')
    = Some {| Query.sqls := [sample_where "english"]; Query.ew_params := [sample_params] |} /\
    Query.aggregates q' !! "rank" = Some a /\
    AggregateRegister.extra a !! "dictionary" = Some (PyStr "english") /\
    AggregateRegister.as_sql a bracket_qn
    = Ok ("ts_rank([article].[fts_index], to_tsquery('english', %s), 1|2)", [sample_params]).
Proof.
  destruct (default_dictionary_inferred rank_self english_field sample_query "rank" sample_col
              sample_search (sample_where "english") (sample_where "english") sample_params)
    as (self' & q' & a & Hrun & Hd & _ & Hw & Ha & Hx & Hsql).
  - reflexivity.
  - unfold attachable. split; [vm_compute; discriminate|repeat split; reflexivity].
  - exists self', q', a. do 5 (split; [assumption|]).
    apply (Hsql bracket_qn ", 1|2"). vm_compute. reflexivity.
Defined.

Lemma group_by_added_once_witness :
  let r1 := Aggregate.add_to_query "rank" sample_col english_field (rank_self, sample_query) in
  let r2 := Aggregate.add_to_query "rank_pt" sample_col english_field
              (portuguese_self, r1.2.2) in
  r1.1 = Ok tt /\ r2.1 = Ok tt /\
  Query.group_by r1.2.2 = [["article"; "id"]; sample_col] /\
  Query.group_by r2.2.2 = [["article"; "id"]; sample_col] /\
  group_by_copies sample_col r2.2.2 = 1.
Proof.
  destruct (group_by_added_once rank_self portuguese_self english_field english_field
              "rank" "rank_pt" sample_col sample_query
              sample_search sample_search
              (sample_where "english") (sample_where "english")
              (sample_where "portuguese") (sample_where "portuguese")
              sample_params sample_params)
    as (s1' & q1 & s2' & q2 & H1 & H2 & G1 & G2 & G3 & G4).
  - unfold attachable. split; [vm_compute; discriminate|repeat split; reflexivity].
  - unfold attachable. split; [reflexivity|repeat split; reflexivity].
  - cbv zeta. rewrite H1. cbn [fst snd]. rewrite H2. cbn [fst snd].
    split; [reflexivity|]. split; [reflexivity|].
    assert (Query.group_by q1 = [["article"; "id"]; sample_col]) as E1
      by (rewrite G1; reflexivity).
    split; [exact E1|]. split; [by rewrite G2|].
    apply G4. vm_compute. lia.
Defined.

Lemma one_segment_path_unpacking_error_witness :
  split LOOKUP_SEP "search" = Ok ["search"] /\
  new FTSRankDictionay {[ "search" := PyStr "Hello world" ]} = Raise ValueError /\
  new FTSRankCdDictionary
    {[ "search" := PyStr "Hello world"; "normalization" := PyList [PyInt 1] ]}
  = Raise ValueError.
Proof.
  split; [reflexivity|]. split.
  - apply (one_segment_path_unpacking_error FTSRankDictionay _ "search" "search"
             (PyStr "Hello world")); [reflexivity|vm_compute; reflexivity|reflexivity].
  - apply (one_segment_path_unpacking_error FTSRankCdDictionary _ "search" "search"
             (PyStr "Hello world")); [reflexivity|vm_compute; reflexivity|reflexivity].
Defined.

(** C4 as stated fails: one keyword argument, and construction does not
    succeed. *)
Lemma single_argument_counterexample :
  size (delete "normalization" ({[ "search" := PyStr "Hello world" ]} : gmap string val)) = 1 /\
  ~ (exists self, new FTSRankDictionay {[ "search" := PyStr "Hello world" ]} = Ok self).
Proof.
  split; [vm_compute; reflexivity|].
  intros [self H]. vm_compute in H. discriminate H.
Qed.

Lemma single_argument_contract_witness :
  new FTSRank ∅ = Raise (AssertionError "to many arguments for FTSRank") /\
  new FTSRankCdDictionary
    {[ "a__b__search" := PyStr "x"; "c__d__search" := PyStr "y" ]}
  = Raise (AssertionError "to many arguments for FTSRankCdDictionary") /\
  (exists self, new FTSRankCd rank_kwargs = Ok self) /\
  (exists self, new FTSRankDictionay portuguese_kwargs = Ok self).
Proof.
  split; [|split; [|split]].
  - apply (proj1 (single_argument_contract FTSRank ∅)). vm_compute. lia.
  - apply (proj1 (single_argument_contract FTSRankCdDictionary
                    {[ "a__b__search" := PyStr "x"; "c__d__search" := PyStr "y" ]})).
    vm_compute. lia.
  - apply (proj1 (proj2 (single_argument_contract FTSRankCd rank_kwargs)));
      [vm_compute; reflexivity|reflexivity].
  - apply (proj2 (proj2 (single_argument_contract FTSRankDictionay portuguese_kwargs))
             "fts_index__portuguese__search" (PyStr "Hello world")
             ["fts_index"; "portuguese"; "search"]);
      [vm_compute; reflexivity|reflexivity|reflexivity|cbn; lia].
Defined.



(** C8 as stated fails: after the second attachment the WHERE fragment is
    there twice, the column is in GROUP BY once. *)
Lemma reattachment_counterexample :
  ~ reattachment_duplicates_both "rank" sample_col english_field rank_self sample_query
      (sample_where "english") /\
  (let r1 := Aggregate.add_to_query "rank" sample_col english_field (rank_self, sample_query) in
   let r2 := Aggregate.add_to_query "rank" sample_col english_field r1.2 in
   r1.1 = Ok tt /\ r2.1 = Ok tt /\
   where_copies (sample_where "english") r2.2.2 = 2 /\
   group_by_copies sample_col r2.2.2 = 1).
Proof.
  split.
  - unfold reattachment_duplicates_both. intros (_ & _ & _ & H).
    vm_compute in H. discriminate H.
  - vm_compute. repeat split; reflexivity.
Qed.

Lemma reattachment_duplicates_where_only_witness :
  let self1 := attached_self rank_self "english" sample_params in
  let a := registered_expression rank_self english_field sample_col "english" sample_params in
  let q1 := attached_query sample_query "rank" sample_col (sample_where "english")
              sample_params a in
  let q2 := attached_query q1 "rank" sample_col (sample_where "english") sample_params a in
  exists node,
    Query.where_children q1 = [node] /\
    Query.where_children q2 = [node; node] /\
    Query.group_by q2 = Query.group_by q1 /\
    group_by_copies sample_col q2 = group_by_copies sample_col q1 /\
    Query.aggregates q2 = Query.aggregates q1.
Proof.
  intros self1 a q1 q2.
  destruct (reattachment_duplicates_where_only rank_self self1 self1 english_field "rank"
              sample_col sample_query q1 q2 tt tt)
    as (node & H1 & H2 & H3 & H4 & H5 & _).
  - vm_compute. reflexivity.
  - vm_compute. reflexivity.
  - exists node. repeat split; assumption.
Defined.

Lemma attachment_stores_inferred_dictionary_witness :
  let self1 :=
    (Aggregate.add_to_query "rank" sample_col english_field (rank_self, sample_query)).2.1 in
  Aggregate.dictionary self1 = "english" /\
  Aggregate.add_to_query "rank" sample_col (sample_field "portuguese" ["portuguese"])
    (self1, sample_query)
  = (Raise (FieldError "english"), (self1, sample_query)) /\
  Aggregate.dictionary
    (Aggregate.add_to_query "rank" sample_col portuguese_field (self1, sample_query)).2.1
  = "english".
Proof.
  intros self1.
  destruct (attachment_stores_inferred_dictionary rank_self english_field sample_query
              "rank" sample_col) as (Hd & _ & _ & _ & _ & Hnext).
  - reflexivity.
  - vm_compute. discriminate.
  - split; [exact Hd|]. split.
    + apply (proj1 (Hnext (sample_field "portuguese" ["portuguese"]) sample_query "rank"
                      sample_col)).
      vm_compute. reflexivity.
    + destruct (Aggregate.add_to_query "rank" sample_col portuguese_field
                  (self1, sample_query)) as [[[]| |] [self2 q2']] eqn:Hrun.
      * apply (proj2 (Hnext portuguese_field sample_query "rank" sample_col) tt self2 q2').
        exact Hrun.
      * vm_compute in Hrun. discriminate Hrun.
      * vm_compute in Hrun. discriminate Hrun.
Defined.

End Runs.

(** ** Splitting and joining lose nothing *)

Section SplitJoin.

Lemma snoc_append (cur : string) (c : ascii) (s : string) :
  snoc cur c +:+ s = cur +:+ String c s.
Proof.
  induction cur as [|a cur IH]; [reflexivity|].
  change (String a (snoc cur c +:+ s) = String a (cur +:+ String c s)). by rewrite IH.
Qed.

Lemma append_assoc (a b c : string) : (a +:+ b) +:+ c = a +:+ b +:+ c.
Proof.
  induction a as [|x a IH]; [reflexivity|].
  change (String x ((a +:+ b) +:+ c) = String x (a +:+ b +:+ c)). by rewrite IH.
Qed.

Lemma join_cons (sep x : string) (l : list string) :
  l <> [] -> join sep (x :: l) = x +:+ sep +:+ join sep l.
Proof. by destruct l. Qed.

Lemma prefix_length (sep s : string) :
  String.prefix sep s = true -> String.length sep <= String.length s.
Proof.
  revert sep. induction s as [|c s IH]; intros [|a sep]; cbn; try lia; try discriminate.
  destruct (ascii_dec a c); [|discriminate]. intros H. specialize (IH _ H). lia.
Qed.

Lemma prefix_drop (sep s : string) :
  String.prefix sep s = true -> s = sep +:+ string_drop (String.length sep) s.
Proof.
  revert sep. induction s as [|c s IH]; intros [|a sep]; cbn; try reflexivity; try discriminate.
  destruct (ascii_dec a c) as [->|]; [|discriminate]. intros H.
  change (String c s = String c (sep +:+ string_drop (String.length sep) s)).
  by rewrite <- (IH _ H).
Qed.

(** [sep.join(s.split(sep)) == s], with the scanner anywhere in [s]. *)
Lemma join_split_go (sep : string) (s : string) :
  sep <> "" ->
  forall skip cur, skip <= String.length s ->
    join sep (split_go sep skip cur s) = cur +:+ string_drop skip s.
Proof.
  intros Hsep. induction s as [|c s IH]; intros skip cur Hskip.
  - cbn in Hskip. assert (skip = 0) as -> by lia.
    change (cur = cur +:+ ""). by rewrite append_empty_r.
  - change (split_go sep skip cur (String c s))
      with (match skip with
            | S k => split_go sep k cur s
            | O => if String.prefix sep (String c s)
                   then cur :: split_go sep (String.length sep - 1) "" s
                   else split_go sep 0 (snoc cur c) s
            end).
    destruct skip as [|k].
    + destruct (String.prefix sep (String c s)) eqn:Hp.
      * rewrite join_cons by apply split_go_nonempty.
        pose proof (prefix_length _ _ Hp) as Hlen. cbn in Hlen.
        rewrite IH by lia.
        destruct sep as [|a sep]; [done|].
        pose proof (prefix_drop _ _ Hp) as Hd.
        change (string_drop (String.length (String a sep)) (String c s))
          with (string_drop (String.length sep) s) in Hd.
        replace (String.length (String a sep) - 1) with (String.length sep) by (cbn; lia).
        change (string_drop 0 (String c s)) with (String c s). rewrite Hd.
        reflexivity.
      * rewrite IH by lia. apply snoc_append.
    + cbn in Hskip. rewrite IH by lia. reflexivity.
Qed.

Lemma join_split (sep s : string) (segments : list string) :
  split sep s = Ok segments -> join sep segments = s.
Proof.
  unfold split. destruct (String.eqb_spec sep ""); [discriminate|].
  intros [= <-]. rewrite join_split_go by (done || lia). reflexivity.
Qed.

(** A list of at least two items joins as its front, the separator, and
    its last item. *)
Lemma join_but_last (sep : string) (l : list string) (x : string) :
  2 <= length l -> last l = Some x ->
  join sep l = join sep (but_last l) +:+ sep +:+ x.
Proof.
  induction l as [|a l IH]; [cbn; lia|]. intros Hlen Hlast.
  destruct l as [|b l]; [cbn in Hlen; lia|].
  destruct l as [|c l].
  - cbn in Hlast. injection Hlast as <-. reflexivity.
  - assert (last (b :: c :: l) = Some x) as Hlast' by exact Hlast.
    specialize (IH ltac:(cbn; lia) Hlast').
    rewrite join_cons by done. rewrite IH.
    assert (but_last (a :: b :: c :: l) = a :: but_last (b :: c :: l)) as ->.
    { unfold but_last. cbn [length]. replace (S (S (S (length l))) - 1) with
        (S (S (S (length l)) - 1)) by lia. reflexivity. }
    rewrite join_cons; [|unfold but_last; cbn; discriminate].
    by rewrite !append_assoc.
Qed.

End SplitJoin.

(** ** The keyword name is split without loss *)

Section Paths.

Lemma join_app (sep : string) (l1 l2 : list string) :
  l1 <> [] -> l2 <> [] ->
  join sep (l1 ++ l2)%list = join sep l1 +:+ sep +:+ join sep l2.
Proof.
  intros H1 H2. induction l1 as [|a l1 IH]; [done|].
  destruct l1 as [|b l1].
  - change (join sep (a :: l2) = a +:+ sep +:+ join sep l2). by apply join_cons.
  - change (join sep (a :: (b :: l1) ++ l2)%list
            = join sep (a :: b :: l1) +:+ sep +:+ join sep l2).
    rewrite !join_cons by done. rewrite IH by done. by rewrite !append_assoc.
Qed.

Lemma last_two_split {A} (l : list A) : l = (but_last_two l ++ last_two l)%list.
Proof. unfold but_last_two, last_two. by rewrite take_drop. Qed.

Lemma but_last_two_nil {A} (l : list A) : length l = 2 -> but_last_two l = [].
Proof. intros H. unfold but_last_two. rewrite H. reflexivity. Qed.

Lemma but_last_two_cons {A} (l : list A) : 3 <= length l -> but_last_two l <> [].
Proof.
  intros H Hnil. apply (f_equal length) in Hnil. unfold but_last_two in Hnil.
  rewrite length_take in Hnil. cbn in Hnil. lia.
Qed.

Lemma but_last_single {A} (x : A) : but_last [x] = [].
Proof. reflexivity. Qed.

(** X1. [FTSRank] and [FTSRankCd] split the keyword's name without loss:
    the instance keeps the value as [rhs], has no dictionary, takes the
    last segment as [srt_lookup], and [lookup], [__] and [srt_lookup] put
    together give the name back; a name of one segment leaves [lookup]
    empty. *)
Theorem FTSRank_path_recomposed (c : cls) (kwargs : gmap string val)
    (k : string) (v : val) (segments : list string) :
  dictionary_aware c = false ->
  delete "normalization" kwargs = {[k := v]} ->
  split LOOKUP_SEP k = Ok segments ->
  exists self,
    new c kwargs = Ok self /\
    Aggregate.rhs self = v /\
    Aggregate.dictionary self = "" /\
    last segments = Some (Aggregate.srt_lookup self) /\
    (length segments = 1 ->
     Aggregate.lookup self = "" /\ Aggregate.srt_lookup self = k) /\
    (2 <= length segments ->
     Aggregate.lookup self +:+ LOOKUP_SEP +:+ Aggregate.srt_lookup self = k).
Proof.
  intros Hc He Hseg.
  pose proof (join_split _ _ _ Hseg) as Hjoin.
  assert (split_go LOOKUP_SEP 0 "" k = segments) as Hgo.
  { unfold split in Hseg. cbn in Hseg. congruence. }
  assert (forall c', exists self,
            FTSRank_init c' kwargs = Ok self /\
            Aggregate.rhs self = v /\
            Aggregate.dictionary self = "" /\
            last segments = Some (Aggregate.srt_lookup self) /\
            (length segments = 1 ->
             Aggregate.lookup self = "" /\ Aggregate.srt_lookup self = k) /\
            (2 <= length segments ->
             Aggregate.lookup self +:+ LOOKUP_SEP +:+ Aggregate.srt_lookup self = k))
    as Hplain.
  { intros c'. destruct (FTSRank_init_one c' kwargs k v He) as (x & Hx & E).
    rewrite Hgo in Hx, E. eexists. split; [exact E|]. cbn.
    assert (last segments = Some x) as Hlast.
    { unfold last_item in Hx. destruct (last segments); congruence. }
    do 3 (split; [done|]). split.
    - intros Hlen. destruct segments as [|y [|? ?]]; cbn in Hlen; try lia.
      cbn in Hlast. injection Hlast as ->. split; [reflexivity|exact Hjoin].
    - intros Hlen. rewrite <- Hjoin. symmetry. by apply join_but_last. }
  destruct c; try discriminate; unfold new; apply Hplain.
Qed.

(** X2. [FTSRankDictionay] and [FTSRankCdDictionary] split a name of at
    least two segments without loss: the last two segments become
    [dictionary] and [srt_lookup], and [lookup], [dictionary] and
    [srt_lookup] joined by [__] give the name back; a name of exactly two
    segments leaves [lookup] empty. *)
Theorem FTSRankDictionay_path_recomposed (c : cls) (kwargs : gmap string val)
    (k : string) (v : val) (segments : list string) :
  dictionary_aware c = true ->
  delete "normalization" kwargs = {[k := v]} ->
  split LOOKUP_SEP k = Ok segments ->
  2 <= length segments ->
  exists self,
    new c kwargs = Ok self /\
    Aggregate.rhs self = v /\
    last_two segments = [Aggregate.dictionary self; Aggregate.srt_lookup self] /\
    (length segments = 2 ->
     Aggregate.lookup self = "" /\
     Aggregate.dictionary self +:+ LOOKUP_SEP +:+ Aggregate.srt_lookup self = k) /\
    (3 <= length segments ->
     Aggregate.lookup self +:+ LOOKUP_SEP +:+ Aggregate.dictionary self
       +:+ LOOKUP_SEP +:+ Aggregate.srt_lookup self = k).
Proof.
  intros Hc He Hseg Hlen.
  pose proof (join_split _ _ _ Hseg) as Hjoin.
  assert (split_go LOOKUP_SEP 0 "" k = segments) as Hgo.
  { unfold split in Hseg. cbn in Hseg. congruence. }
  destruct (last_two_long segments Hlen) as (a & b & Hab).
  assert (forall c', exists self,
            FTSRankDictionay_init c' kwargs = Ok self /\
            Aggregate.rhs self = v /\
            last_two segments = [Aggregate.dictionary self; Aggregate.srt_lookup self] /\
            (length segments = 2 ->
             Aggregate.lookup self = "" /\
             Aggregate.dictionary self +:+ LOOKUP_SEP +:+ Aggregate.srt_lookup self = k) /\
            (3 <= length segments ->
             Aggregate.lookup self +:+ LOOKUP_SEP +:+ Aggregate.dictionary self
               +:+ LOOKUP_SEP +:+ Aggregate.srt_lookup self = k))
    as Hdict.
  { intros c'. rewrite (FTSRankDictionay_init_one c' kwargs k v He), Hgo, Hab.
    eexists. split; [reflexivity|]. cbn.
    do 2 (split; [done|]).
    pose proof (last_two_split segments) as Hsplit. rewrite Hab in Hsplit.
    split.
    - intros H2. rewrite (but_last_two_nil _ H2) in Hsplit |- *.
      split; [reflexivity|]. rewrite <- Hjoin. by rewrite Hsplit.
    - intros H3. rewrite <- Hjoin.
      assert (join LOOKUP_SEP segments
              = join LOOKUP_SEP (but_last_two segments ++ [a; b])%list) as ->
        by (by rewrite <- Hsplit).
      rewrite join_app; [reflexivity|by apply but_last_two_cons|done]. }
  destruct c; try discriminate; unfold new; apply Hdict.
Qed.

End Paths.

(** ** More on rendering *)

Section RenderingEdges.

Import AggregateRegister.

Lemma mod_d_printed (v : val) :
  mod_ "%d" v = match printed_d v with Some s => Ok s | None => Raise TypeError end.
Proof.
  destruct v as [|[]|z|s|l|l]; try reflexivity.
  - apply mod_d_int.
  - destruct l as [|a [|b l]]; try reflexivity.
    + destruct a as [|[]|z|s|l'|l']; try reflexivity. apply mod_d_int.
    + destruct a as [|[]|z|s|l'|l']; reflexivity.
Qed.

Lemma mapM_mod_d_printed (items : list val) :
  mapM (mod_ "%d") items
  = match mapM printed_d items with Some parts => Ok parts | None => Raise TypeError end.
Proof.
  induction items as [|a items IH]; [reflexivity|].
  change (mapM (mod_ "%d") (a :: items))
    with (mod_ "%d" a ≫= fun s => mapM (mod_ "%d") items ≫= fun r => mret (s :: r)).
  change (mapM printed_d (a :: items))
    with (printed_d a ≫= fun s => mapM printed_d items ≫= fun r => mret (s :: r)).
  rewrite mod_d_printed, IH.
  destruct (printed_d a); [|reflexivity]. cbn.
  destruct (mapM printed_d items); reflexivity.
Qed.

(** The suffix is a text or a [TypeError], nothing else. *)
Lemma format_sql_template_no_dictionary (m : gmap string val) (f fld : string) :
  m !! "function" = Some (PyStr f) ->
  m !! "field_name" = Some (PyStr fld) ->
  m !! "dictionary" = None ->
  mod_dict sql_template m = Raise (KeyError "dictionary").
Proof.
  intros Hf Hfld Hd. unfold mod_dict, sql_template.
  cbn -[lookup]. rewrite Hf. cbn -[lookup]. rewrite Hfld. cbn -[lookup]. rewrite Hd.
  reflexivity.
Qed.

(** X5. [as_sql] does not fill in the dictionary itself: when [extra]
    has no [dictionary] (and leaves [function] and [field_name] alone),
    an expression whose normalization renders raises [KeyError] for
    [dictionary] instead of returning text. *)
Theorem as_sql_missing_dictionary (self : t) (qn : string -> string) (f sfx : string) :
  sql_function self = PyStr f ->
  extra self !! "dictionary" = None ->
  extra self !! "function" = None ->
  extra self !! "field_name" = None ->
  normalization_params (normalization self) = Ok sfx ->
  as_sql self qn = Raise (KeyError "dictionary").
Proof.
  intros Hf Hd Hk1 Hk2 Hn. unfold as_sql. rewrite Hn, bind_ok. cbv beta zeta.
  rewrite (format_sql_template_no_dictionary _ f (join "." (qn <$> col self)));
    [reflexivity| | |].
  - rewrite lookup_union_r by exact Hk1. rewrite Hf. by simplify_map_eq.
  - rewrite lookup_union_r by exact Hk2. by simplify_map_eq.
  - rewrite lookup_union_r by exact Hd. by simplify_map_eq.
Qed.

Lemma lookup_update (extra computed : gmap string val) (k : string) (v : val) :
  computed !! k = Some v ->
  (extra ∪ computed) !! k = Some (default v (extra !! k)).
Proof.
  intros Hc. rewrite lookup_union, Hc. by destruct (extra !! k).
Qed.

(** X6. What [extra] carries under a key of the template replaces what
    [as_sql] computes for it ([substitutions.update(self.extra)]): the
    text is the template filled with the value of [extra] where it has
    one and with the function name, the quoted column, [%s] and the
    rendered normalization otherwise. *)
Theorem as_sql_extra_overrides (self : t) (qn : string -> string)
    (f sfx d g fld pl nz : string) :
  sql_function self = PyStr f ->
  normalization_params (normalization self) = Ok sfx ->
  extra self !! "dictionary" = Some (PyStr d) ->
  default (PyStr f) (extra self !! "function") = PyStr g ->
  default (PyStr (join "." (qn <$> col self))) (extra self !! "field_name") = PyStr fld ->
  default (PyStr "%s") (extra self !! "place") = PyStr pl ->
  default (PyStr sfx) (extra self !! "normalization") = PyStr nz ->
  as_sql self qn
  = Ok (g +:+ "(" +:+ fld +:+ ", to_tsquery('" +:+ d +:+ "', " +:+ pl +:+ ")" +:+ nz +:+ ")",
        [params self]).
Proof.
  intros Hf Hn Hd Hg Hfld Hpl Hnz. unfold as_sql. rewrite Hn, bind_ok. cbv beta zeta.
  rewrite (format_sql_template _ g fld d pl nz); [reflexivity| | | | |].
  - rewrite (lookup_update _ _ "function" (sql_function self)) by (by simplify_map_eq).
    by rewrite Hf, Hg.
  - rewrite (lookup_update _ _ "field_name" (PyStr (join "." (qn <$> col self))))
      by (by simplify_map_eq).
    by rewrite Hfld.
  - by apply lookup_union_Some_l.
  - rewrite (lookup_update _ _ "place" (PyStr "%s")) by (by simplify_map_eq).
    by rewrite Hpl.
  - rewrite (lookup_update _ _ "normalization" (PyStr sfx)) by (by simplify_map_eq).
    by rewrite Hnz.
Qed.

Lemma mapM_raises_head (c : string) (rest : list val) :
  mapM (mod_ "%d") (PyStr c :: rest) = Raise TypeError.
Proof. reflexivity. Qed.

(** X7. The normalization value has to be a sequence. A false value
    (None, False, 0, an empty string, list or tuple) renders no suffix; a
    non-zero integer or True, which cannot be iterated, and a non-empty
    string, whose characters [%d] cannot print, raise [TypeError]. *)
Theorem normalization_must_be_sequence (N : val) :
  (truthy N = false -> normalization_params N = Ok "") /\
  (truthy N = true ->
   match N with
   | PyInt _ | PyBool _ | PyStr _ => normalization_params N = Raise TypeError
   | PyNone | PyTuple _ | PyList _ => True
   end).
Proof.
  unfold normalization_params. split; intros Ht; rewrite Ht; [reflexivity|].
  destruct N as [|b|z|s|l|l]; try done.
  cbn [iter]. rewrite bind_ok.
  destruct s as [|c s]; [discriminate Ht|].
  change (PyStr <$> chars (String c s)) with (PyStr (String c "") :: (PyStr <$> chars s)).
  by rewrite mapM_raises_head.
Qed.

(** X8. Which entries a normalization list may hold, among the values
    of the fragment ([None], booleans, integers, strings, lists and tuples;
    floats and the other number types are not part of it): the suffix of
    a non-empty list (or tuple) is [, ] and the entries' texts joined by
    bars when every entry is an integer or a boolean (bare or as the only
    element of a tuple), and rendering raises [TypeError] as soon as one
    entry is [None], a string, a list or any other tuple. *)
Theorem normalization_entries (items : list val) :
  items <> [] ->
  normalization_params (PyList items)
  = match mapM printed_d items with
    | Some parts => Ok (", " +:+ join "|" parts)
    | None => Raise TypeError
    end
  /\ normalization_params (PyTuple items) = normalization_params (PyList items).
Proof.
  intros Hne. split; [|reflexivity].
  unfold normalization_params. destruct items as [|i items]; [done|].
  change (truthy (PyList (i :: items))) with true. cbv iota.
  change (iter (PyList (i :: items))) with (Ok (i :: items)).
  rewrite bind_ok, mapM_mod_d_printed.
  by destruct (mapM printed_d (i :: items)).
Qed.

End RenderingEdges.

(** ** The suffix can be read back *)

Section SuffixReadBack.

Import AggregateRegister.

Lemma digits_free_of_bar (d : Decimal.uint) :
  free_of "|" (NilEmpty.string_of_uint d) = true.
Proof. induction d; cbn; auto. Qed.

Lemma dec_free_of_bar (z : Z) : free_of "|" (dec z) = true.
Proof.
  unfold dec. destruct z as [|p|p]; [reflexivity| |].
  - cbn [Z.to_int NilZero.string_of_int]. unfold NilZero.string_of_uint.
    destruct (Pos.to_uint p); try apply digits_free_of_bar. reflexivity.
  - cbn [Z.to_int NilZero.string_of_int]. unfold NilZero.string_of_uint.
    change (free_of "|" (String "-" ?s)) with (free_of "|" s).
    destruct (Pos.to_uint p); try apply digits_free_of_bar. reflexivity.
Qed.

Lemma parse_dec_dec (z : Z) : parse_dec (dec z) = Some z.
Proof.
  unfold parse_dec, dec.
  destruct z as [|p|p]; [reflexivity| |].
  - rewrite NilZero.isi.
    + cbn [fmap option_fmap option_map]. f_equal. apply (DecimalZ.of_to (Z.pos p)).
    + cbn. intros [= H]. by apply Unsigned.to_uint_nonnil in H.
    + discriminate.
  - rewrite NilZero.isi.
    + cbn [fmap option_fmap option_map]. f_equal. apply (DecimalZ.of_to (Z.neg p)).
    + discriminate.
    + cbn. intros [= H]. by apply Unsigned.to_uint_nonnil in H.
Qed.

Lemma mapM_parse_dec (ns : list Z) : mapM parse_dec (dec <$> ns) = Some ns.
Proof.
  induction ns as [|n ns IH]; [reflexivity|].
  change (mapM parse_dec (dec <$> n :: ns))
    with (parse_dec (dec n) ≫= fun z => mapM parse_dec (dec <$> ns) ≫= fun r => mret (z :: r)).
  by rewrite parse_dec_dec, IH.
Qed.

Lemma prefix_bar (c : ascii) (r : string) :
  Ascii.eqb c "|" = false -> String.prefix "|" (String c r) = false.
Proof.
  intros Hc.
  change (String.prefix "|" (String c r))
    with (match ascii_dec "|" c with left _ => String.prefix "" r | right _ => false end).
  destruct (ascii_dec "|" c) as [<-|]; [discriminate Hc|reflexivity].
Qed.

Lemma prefix_bar_hit (r : string) : String.prefix "|" (String "|" r) = true.
Proof. by destruct r. Qed.

(** Splitting at bars undoes joining with bars, for texts without bars. *)
Lemma split_join_bar (l : list string) :
  Forall (fun s => free_of "|" s = true) l ->
  forall x cur, free_of "|" x = true ->
    split_go "|" 0 cur (join "|" (x :: l)) = (cur +:+ x) :: l.
Proof.
  induction 1 as [|y l Hy Hl IH]; intros x.
  - induction x as [|c x IHx]; intros cur Hx.
    + change ([cur] = [cur +:+ ""]). by rewrite append_empty_r.
    + cbn in Hx. apply andb_prop in Hx as [Hc Hx].
      change (join "|" [String c x]) with (String c (join "|" [x])).
      change (split_go "|" 0 cur (String c (join "|" [x])))
        with (if String.prefix "|" (String c (join "|" [x]))
              then cur :: split_go "|" 0 "" (join "|" [x])
              else split_go "|" 0 (snoc cur c) (join "|" [x])).
      rewrite prefix_bar by (by destruct (Ascii.eqb c "|")).
      rewrite IHx by done. by rewrite snoc_append.
  - induction x as [|c x IHx]; intros cur Hx.
    + change (join "|" ("" :: y :: l)) with (String "|" (join "|" (y :: l))).
      change (split_go "|" 0 cur (String "|" (join "|" (y :: l))))
        with (if String.prefix "|" (String "|" (join "|" (y :: l)))
              then cur :: split_go "|" 0 "" (join "|" (y :: l))
              else split_go "|" 0 (snoc cur "|") (join "|" (y :: l))).
      rewrite prefix_bar_hit, IH by done. by rewrite append_empty_r.
    + cbn in Hx. apply andb_prop in Hx as [Hc Hx].
      change (join "|" (String c x :: y :: l)) with (String c (join "|" (x :: y :: l))).
      change (split_go "|" 0 cur (String c (join "|" (x :: y :: l))))
        with (if String.prefix "|" (String c (join "|" (x :: y :: l)))
              then cur :: split_go "|" 0 "" (join "|" (x :: y :: l))
              else split_go "|" 0 (snoc cur c) (join "|" (x :: y :: l))).
      rewrite prefix_bar by (by destruct (Ascii.eqb c "|")).
      rewrite IHx by done. by rewrite snoc_append.
Qed.

Lemma parse_spec_suffix (ns : list Z) : parse_suffix (spec_suffix ns) = Some ns.
Proof.
  destruct ns as [|n ns]; [reflexivity|].
  unfold spec_suffix. rewrite <- join_bar_tail.
  change (parse_suffix (", " +:+ join "|" (dec <$> n :: ns)))
    with (mapM parse_dec (split_go "|" 0 "" (join "|" (dec n :: (dec <$> ns))))).
  rewrite split_join_bar.
  - change ("" +:+ dec n) with (dec n). apply (mapM_parse_dec (n :: ns)).
  - apply Forall_fmap, Forall_true. intros z. apply dec_free_of_bar.
  - apply dec_free_of_bar.
Qed.

(** X9. The normalization suffix loses nothing: reading the rendered
    suffix of a list of integers back (the texts between the bars, as
    integers) gives the list, so two lists render to the same suffix only
    when they are the same list. *)
Theorem normalization_suffix_read_back (ns : list Z) :
  (exists sfx, normalization_params (PyList (PyInt <$> ns)) = Ok sfx /\
               parse_suffix sfx = Some ns) /\
  (forall ns', normalization_params (PyList (PyInt <$> ns'))
               = normalization_params (PyList (PyInt <$> ns)) -> ns' = ns).
Proof.
  split.
  - exists (spec_suffix ns). split; [apply normalization_params_ints|apply parse_spec_suffix].
  - intros ns'. rewrite !normalization_params_ints. intros [= H].
    apply (f_equal parse_suffix) in H. rewrite !parse_spec_suffix in H. congruence.
Qed.

End SuffixReadBack.

(** ** More on attachment *)

Section AttachmentEdges.

Import Aggregate.

Lemma default_alias_text (self : t) :
  default_alias self = Ok (lookup self +:+ "__" +:+ lower (name (class_ self))).
Proof.
  unfold default_alias. cbn. by rewrite append_empty_r.
Qed.

(** X3. The default alias of an instance is its lookup, [__], and the
    lower-cased [name] of its class. [FTSRankDictionay] inherits [name]
    from [FTSRank], so instances of the two over the same lookup have the
    same default alias, while the aliases of the four classes are
    otherwise distinct. *)
Theorem default_alias_by_class (self : t) :
  default_alias self = Ok (lookup self +:+ "__" +:+ alias_tag (class_ self)) /\
  (forall other,
     lookup other = lookup self ->
     (default_alias other = default_alias self <->
      class_ other = class_ self \/
      (class_ other = FTSRank /\ class_ self = FTSRankDictionay) \/
      (class_ other = FTSRankDictionay /\ class_ self = FTSRank))).
Proof.
  assert (forall s, default_alias s = Ok (lookup s +:+ "__" +:+ alias_tag (class_ s))) as Htext.
  { intros s. rewrite default_alias_text. by destruct (class_ s). }
  split; [apply Htext|]. intros other Hl. rewrite !Htext, Hl. split.
  - intros [= H]. apply (f_equal (string_drop (String.length (lookup self +:+ "__")))) in H.
    assert (forall a b, string_drop (String.length a) (a +:+ b) = b) as Hdrop.
    { intros a b. induction a as [|ch a IH]; [reflexivity|exact IH]. }
    rewrite <- !append_assoc, !Hdrop in H.
    destruct (class_ other), (class_ self); try discriminate H; auto.
  - intros [->|[[-> ->]|[-> ->]]]; reflexivity.
Qed.

(** X11. An instance that carries a dictionary of its own is attached
    with it, whatever the field's default: once the field accepts the name
    as a transform, the WHERE fragment is the lookup's template filled with
    that name, the expression registered under the alias carries it and
    renders [to_tsquery('<name>', %s)], and the instance keeps it. *)
Theorem explicit_dictionary_used (self : t) (source : Field.t) (q : Query.t)
    (alias : string) (col : list string) (lk : Lookup.t) (fts_query w : string) (params : val) :
  dictionary self <> "" ->
  attachable self source col lk fts_query w params ->
  exists self' q' a,
    add_to_query alias col source (self, q) = (Ok tt, (self', q')) /\
    dictionary self' = dictionary self /\
    Field.get_transform source (dictionary self) = Ok tt /\
    mod_ (Lookup.lookup_sql lk)
      (PyTuple [PyStr (quoted_col col); PyStr (dictionary self); PyStr "%s"])
    = Ok fts_query /\
    last (Query.where_children q') = Some {| Query.sqls := [w]; Query.ew_params := [params] |} /\
    Query.aggregates q' !! alias = Some a /\
    AggregateRegister.extra a !! "dictionary" = Some (PyStr (dictionary self)) /\
    (forall qn sfx,
       AggregateRegister.normalization_params (normalization self) = Ok sfx ->
       AggregateRegister.as_sql a qn
       = Ok (spec_rank_call (sql_function (class_ self)) (join "." (qn <$> col))
               (dictionary self) sfx, [params])).
Proof.
  intros Hd Hatt.
  pose proof (truthy_str _ Hd) as Ht.
  assert (resolved_dictionary self source = dictionary self) as Hres.
  { unfold resolved_dictionary. by rewrite Ht. }
  pose proof (add_to_query_ok alias col source self q lk fts_query w params Hatt) as Hrun.
  destruct Hatt as (Hgt & _ & Hfts & _ & _). rewrite Hres in Hrun, Hfts.
  eexists _, _, _. split; [exact Hrun|].
  split; [reflexivity|]. split; [by apply Hgt|]. split; [exact Hfts|].
  split; [apply last_snoc|].
  split; [apply lookup_insert_eq|].
  split; [apply attached_extra_dictionary|].
  intros qn sfx Hsfx.
  apply (as_sql_text (registered_expression self source col (dictionary self) params));
    [reflexivity|apply attached_extra_dictionary|apply attached_extra_free|exact Hsfx].
Qed.

(** X12. A lookup name the field does not know: [get_lookup] yields
    [None], reading its [lookup_sql] raises [AttributeError], and the
    query is untouched; an instance without a dictionary has by then taken
    the field's default. *)
Theorem unknown_lookup_raises (self : t) (source : Field.t) (q : Query.t)
    (alias : string) (col : list string) :
  (dictionary self <> "" -> Field.get_transform source (dictionary self) = Ok tt) ->
  Field.get_lookup source (srt_lookup self) = Ok None ->
  add_to_query alias col source (self, q)
  = (Raise AttributeError, (set_dictionary (resolved_dictionary self source) self, q)).
Proof.
  intros Hgt Hlk. unfold resolved_dictionary.
  cbv [add_to_query mbind M_bind lift get_self get_query upd_self upd_query mret M_ret fst snd].
  destruct (truthy (PyStr (dictionary self))) eqn:Ht.
  - rewrite Hgt, Hlk; [by rewrite set_dictionary_same|].
    intros Hd. rewrite Hd in Ht. discriminate Ht.
  - change (srt_lookup (set_dictionary _ ?s)) with (srt_lookup s). by rewrite Hlk.
Qed.

(** X13. On a query whose [group_by] is a list, as [Query.t] has it and
    as [annotate] sets it up before attaching, an attachment that does not
    return normally, whatever raised, leaves the query as it was:
    everything that can fail in [add_to_query] then comes before its first
    change to the query. (The membership test of the last statement is the
    one step after the changes; it cannot fail on a list. On the [None] of
    a query that was never grouped it raises [TypeError] with the WHERE
    node and the expression already added; that state is outside
    [Query.t].) *)
Theorem failed_attachment_keeps_query (self : t) (source : Field.t) (q : Query.t)
    (alias : string) (col : list string) :
  (forall u, (add_to_query alias col source (self, q)).1 <> Ok u) ->
  (add_to_query alias col source (self, q)).2.2 = q.
Proof.
  intros Hfail.
  destruct (add_to_query_all_or_nothing alias col source self q) as [[u Hu]|Hq]; [|exact Hq].
  by destruct (Hfail u).
Qed.

Lemma add_to_query_query_cases alias col source self q :
  (add_to_query alias col source (self, q)).2.2 = q \/
  exists w params a,
    (add_to_query alias col source (self, q)).2.2 = attached_query q alias col w params a.
Proof.
  destruct (add_to_query_all_or_nothing alias col source self q) as [[u Hu]|Hq]; [|by left].
  destruct (add_to_query alias col source (self, q)) as [o [self' q']] eqn:Hrun.
  cbn in Hu. subst o.
  destruct (add_to_query_returns _ _ _ _ _ _ _ _ Hrun) as (lk & f & w & p & _ & _ & ->).
  right. eauto.
Qed.

(** X14. Attachment only adds to the query: however the call ends, the
    WHERE nodes and the GROUP BY columns that were there are still there,
    in front and in order, with at most one more of each behind them, and
    the expressions registered under other aliases are the same. *)
Theorem attachment_only_adds (self : t) (source : Field.t) (q : Query.t)
    (alias : string) (col : list string) :
  let q' := (add_to_query alias col source (self, q)).2.2 in
  Query.where_children q `prefix_of` Query.where_children q' /\
  length (Query.where_children q') <= S (length (Query.where_children q)) /\
  Query.group_by q `prefix_of` Query.group_by q' /\
  length (Query.group_by q') <= S (length (Query.group_by q)) /\
  (forall x, x ∈ Query.group_by q' -> x ∈ Query.group_by q \/ x = col) /\
  (forall other, other <> alias ->
     Query.aggregates q' !! other = Query.aggregates q !! other).
Proof.
  intros q'. subst q'.
  destruct (add_to_query_query_cases alias col source self q) as [->|(w & p & a & ->)].
  - repeat split; auto.
  - cbn [attached_query Query.where_children Query.group_by Query.aggregates].
    split; [by apply prefix_app_r|].
    split; [rewrite length_app; cbn; lia|].
    destruct (decide (col ∈ Query.group_by q)).
    + split; [done|]. split; [lia|]. split; [auto|].
      intros other Hne. by rewrite lookup_insert_ne.
    + split; [by apply prefix_app_r|]. split; [rewrite length_app; cbn; lia|].
      split.
      * intros x [Hx|Hx]%elem_of_app; [by left|]. right.
        by apply list_elem_of_singleton in Hx.
      * intros other Hne. by rewrite lookup_insert_ne.
Qed.

(** X15. GROUP BY stays free of repetitions: if no column is listed
    twice before the call, none is after it, however the call ends. *)
Theorem group_by_stays_duplicate_free (self : t) (source : Field.t) (q : Query.t)
    (alias : string) (col : list string) :
  NoDup (Query.group_by q) ->
  NoDup (Query.group_by (add_to_query alias col source (self, q)).2.2).
Proof.
  intros Hnd.
  destruct (add_to_query_query_cases alias col source self q) as [->|(w & p & a & ->)]; [done|].
  cbn [attached_query Query.group_by].
  destruct (decide (col ∈ Query.group_by q)) as [|Hnot]; [done|].
  apply NoDup_app. split; [done|]. split; [|apply NoDup_singleton].
  intros x Hx Hx'. apply list_elem_of_singleton in Hx'. by subst x.
Qed.

(** X16. The class of an instance only selects the SQL function: two
    instances that differ in nothing but their class (and what they keep of
    the keyword arguments) are attached alike -- the same calls succeed,
    with the same WHERE nodes and GROUP BY -- and the expressions
    registered render to the same call up to the function name, [ts_rank]
    for [FTSRank] and [FTSRankDictionay], [ts_rank_cd] for the other two. *)
Theorem class_selects_function_only (s1 s2 : t) (source : Field.t) (q : Query.t)
    (alias : string) (col : list string) (u : unit) (s1' : t) (q1 : Query.t) :
  rhs s2 = rhs s1 -> dictionary s2 = dictionary s1 ->
  srt_lookup s2 = srt_lookup s1 -> normalization s2 = normalization s1 ->
  add_to_query alias col source (s1, q) = (Ok u, (s1', q1)) ->
  exists s2' q2 a1 a2 d p,
    add_to_query alias col source (s2, q) = (Ok u, (s2', q2)) /\
    Query.where_children q2 = Query.where_children q1 /\
    Query.group_by q2 = Query.group_by q1 /\
    Query.aggregates q1 !! alias = Some a1 /\
    Query.aggregates q2 !! alias = Some a2 /\
    (forall qn sfx,
       AggregateRegister.normalization_params (normalization s1) = Ok sfx ->
       AggregateRegister.as_sql a1 qn
       = Ok (spec_rank_call (sql_function (class_ s1)) (join "." (qn <$> col)) d sfx, [p]) /\
       AggregateRegister.as_sql a2 qn
       = Ok (spec_rank_call (sql_function (class_ s2)) (join "." (qn <$> col)) d sfx, [p])).
Proof.
  intros Hr Hd Hs Hn Hrun. destruct u.
  destruct (add_to_query_returns _ _ _ _ _ _ _ _ Hrun) as (lk & f & w & p & Hatt & -> & ->).
  assert (resolved_dictionary s2 source = resolved_dictionary s1 source) as Hres.
  { unfold resolved_dictionary. by rewrite Hd. }
  assert (attachable s2 source col lk f w p) as Hatt2.
  { unfold attachable in *. by rewrite Hres, Hd, Hs, Hr. }
  pose proof (add_to_query_ok alias col source s2 q lk f w p Hatt2) as Hrun2.
  rewrite Hres in Hrun2.
  eexists _, _, _, _, (resolved_dictionary s1 source), p. split; [exact Hrun2|].
  split; [reflexivity|]. split; [reflexivity|].
  split; [apply lookup_insert_eq|]. split; [apply lookup_insert_eq|].
  intros qn sfx Hsfx. split.
  - apply (as_sql_text (registered_expression s1 source col _ p));
      [reflexivity|apply attached_extra_dictionary|apply attached_extra_free|exact Hsfx].
  - apply (as_sql_text (registered_expression s2 source col _ p));
      [reflexivity|apply attached_extra_dictionary|apply attached_extra_free|].
    change (AggregateRegister.normalization (registered_expression s2 source col _ p))
      with (normalization s2). by rewrite Hn.
Qed.

(** X10. The expression an attachment registers always renders as far
    as its normalization does. Whenever the collaborators let the
    attachment through, [add_to_query] returns, [AggregateRegister] is
    built from the [extra] the instance then holds (both keys it reads are
    there), and [as_sql] of the expression found under the alias is the
    rank call over the quoted column, the resolved dictionary and the
    rendered normalization, with the prepared parameter as the only bound
    value; when the normalization does not render, [as_sql] ends as the
    rendering of the normalization ended. The template itself never fails:
    no key of it is missing. *)
Theorem registered_expression_renders (self : t) (source : Field.t) (q : Query.t)
    (alias : string) (col : list string) (lk : Lookup.t) (fts_query w : string)
    (params : val) :
  attachable self source col lk fts_query w params ->
  exists self' q' a,
    add_to_query alias col source (self, q) = (Ok tt, (self', q')) /\
    AggregateRegister.init col (Some source) (PyStr (sql_function (class_ self)))
      (extra self') = Ok a /\
    Query.aggregates q' !! alias = Some a /\
    forall qn,
      AggregateRegister.as_sql a qn
      = (fun sfx => (spec_rank_call (sql_function (class_ self)) (join "." (qn <$> col))
                       (resolved_dictionary self source) sfx, [params]))
        <$> AggregateRegister.normalization_params (normalization self).
Proof.
  intros Hatt.
  pose proof (add_to_query_ok alias col source self q lk fts_query w params Hatt) as Hrun.
  eexists _, _, _. split; [exact Hrun|].
  split; [apply init_registered|]. split; [apply lookup_insert_eq|].
  intros qn.
  destruct (AggregateRegister.normalization_params (normalization self)) as [sfx|e|] eqn:Hs.
  - apply (as_sql_text
             (registered_expression self source col (resolved_dictionary self source) params));
      [reflexivity|apply attached_extra_dictionary|apply attached_extra_free|exact Hs].
  - unfold AggregateRegister.as_sql.
    change (AggregateRegister.normalization
              (registered_expression self source col (resolved_dictionary self source) params))
      with (normalization self).
    by rewrite Hs.
  - unfold AggregateRegister.as_sql.
    change (AggregateRegister.normalization
              (registered_expression self source col (resolved_dictionary self source) params))
      with (normalization self).
    by rewrite Hs.
Qed.

(** X17. With a lookup whose template is the one the docstrings show,
    [%s @@ to_tsquery('%s', %s)], and a column and dictionary that hold no
    [%], the WHERE fragment added is exactly the double-quoted, dot-joined
    column, [ @@ to_tsquery('], the dictionary and [', %s)], bound to the
    prepared parameter. *)
Theorem docstring_where_fragment (self : t) (source : Field.t) (q : Query.t)
    (alias : string) (col : list string) (lk : Lookup.t) (params : val) :
  (dictionary self <> "" -> Field.get_transform source (dictionary self) = Ok tt) ->
  Field.get_lookup source (srt_lookup self) = Ok (Some lk) ->
  Lookup.lookup_sql lk = "%s @@ to_tsquery('%s', %s)" ->
  Field._get_db_prep_lookup source (srt_lookup self) (rhs self) = Ok params ->
  percent_free (quoted_col col) = true ->
  percent_free (resolved_dictionary self source) = true ->
  (add_to_query alias col source (self, q)).1 = Ok tt /\
  Query.where_children (add_to_query alias col source (self, q)).2.2
  = (Query.where_children q ++
     [ {| Query.sqls :=
            [quoted_col col +:+ " @@ to_tsquery('" +:+ resolved_dictionary self source
               +:+ "', %s)"];
          Query.ew_params := [params] |} ])%list.
Proof.
  intros Hgt Hlk Htmpl Hp Hcol Hd.
  destruct (search_predicate_text (quoted_col col) (resolved_dictionary self source))
    as [Hfts Hw].
  rewrite (add_to_query_ok alias col source self q lk
             (quoted_col col +:+ " @@ to_tsquery('" +:+ resolved_dictionary self source
                +:+ "', %s)")
             (quoted_col col +:+ " @@ to_tsquery('" +:+ resolved_dictionary self source
                +:+ "', %s)") params).
  - split; reflexivity.
  - unfold attachable. rewrite Htmpl. repeat split; auto.
    intros Ht. apply Hgt. intros Hempty. rewrite Hempty in Ht. discriminate Ht.
Qed.

End AttachmentEdges.

(** ** More concrete runs *)

Section MoreRuns.

Lemma FTSRank_path_recomposed_witness :
  exists self,
    new FTSRank rank_kwargs = Ok self /\
    Aggregate.rhs self = PyStr "Hello world" /\
    Aggregate.dictionary self = "" /\
    last ["fts_index"; "search"] = Some (Aggregate.srt_lookup self) /\
    (length ["fts_index"; "search"] = 1 ->
     Aggregate.lookup self = "" /\ Aggregate.srt_lookup self = "fts_index__search") /\
    (2 <= length ["fts_index"; "search"] ->
     Aggregate.lookup self +:+ LOOKUP_SEP +:+ Aggregate.srt_lookup self = "fts_index__search").
Proof.
  apply (FTSRank_path_recomposed FTSRank rank_kwargs "fts_index__search"
           (PyStr "Hello world") ["fts_index"; "search"]).
  - reflexivity.
  - vm_compute. reflexivity.
  - vm_compute. reflexivity.
Defined.

Lemma FTSRankDictionay_path_recomposed_witness :
  exists self,
    new FTSRankDictionay
      {[ "article__fts_index__portuguese__search" := PyStr "Hello world" ]} = Ok self /\
    Aggregate.rhs self = PyStr "Hello world" /\
    last_two ["article"; "fts_index"; "portuguese"; "search"]
    = [Aggregate.dictionary self; Aggregate.srt_lookup self] /\
    (length ["article"; "fts_index"; "portuguese"; "search"] = 2 ->
     Aggregate.lookup self = "" /\
     Aggregate.dictionary self +:+ LOOKUP_SEP +:+ Aggregate.srt_lookup self
     = "article__fts_index__portuguese__search") /\
    (3 <= length ["article"; "fts_index"; "portuguese"; "search"] ->
     Aggregate.lookup self +:+ LOOKUP_SEP +:+ Aggregate.dictionary self
       +:+ LOOKUP_SEP +:+ Aggregate.srt_lookup self
     = "article__fts_index__portuguese__search").
Proof.
  apply (FTSRankDictionay_path_recomposed FTSRankDictionay
           {[ "article__fts_index__portuguese__search" := PyStr "Hello world" ]}
           "article__fts_index__portuguese__search" (PyStr "Hello world")
           ["article"; "fts_index"; "portuguese"; "search"]).
  - reflexivity.
  - vm_compute. reflexivity.
  - vm_compute. reflexivity.
  - cbn. lia.
Defined.

Example portuguese_default_alias :
  Aggregate.default_alias portuguese_self = Aggregate.default_alias rank_self.
Proof. reflexivity. Qed.

Lemma as_sql_missing_dictionary_witness :
  AggregateRegister.as_sql bare_expression bracket_qn = Raise (KeyError "dictionary").
Proof.
  refine (as_sql_missing_dictionary bare_expression bracket_qn "ts_rank" ", 1" _ _ _ _ _).
  - reflexivity.
  - vm_compute. reflexivity.
  - vm_compute. reflexivity.
  - vm_compute. reflexivity.
  - vm_compute. reflexivity.
Defined.

Lemma as_sql_extra_overrides_witness :
  AggregateRegister.as_sql overriding_expression bracket_qn
  = Ok ("ts_rank_cd" +:+ "(" +:+ "[article].[fts_index]" +:+ ", to_tsquery('" +:+ "english"
          +:+ "', " +:+ "%s" +:+ ")" +:+ ", 1" +:+ ")",
        [AggregateRegister.params overriding_expression]).
Proof.
  refine (as_sql_extra_overrides overriding_expression bracket_qn "ts_rank" ", 1" "english"
            "ts_rank_cd" "[article].[fts_index]" "%s" ", 1" _ _ _ _ _ _ _).
  - reflexivity.
  - vm_compute. reflexivity.
  - vm_compute. reflexivity.
  - vm_compute. reflexivity.
  - vm_compute. reflexivity.
  - vm_compute. reflexivity.
  - vm_compute. reflexivity.
Defined.

Lemma normalization_entries_witness :
  AggregateRegister.normalization_params (PyList [PyInt 1; PyBool true; PyTuple [PyInt 4]])
  = Ok ", 1|1|4" /\
  AggregateRegister.normalization_params (PyList [PyInt 1; PyNone]) = Raise TypeError.
Proof.
  split.
  - apply (proj1 (normalization_entries [PyInt 1; PyBool true; PyTuple [PyInt 4]]
                    ltac:(discriminate))).
  - apply (proj1 (normalization_entries [PyInt 1; PyNone] ltac:(discriminate))).
Defined.

Lemma registered_expression_renders_witness :
  exists self' q' a,
    Aggregate.add_to_query "rank" sample_col english_field (rank_self, sample_query)
    = (Ok tt, (self', q')) /\
    Query.aggregates q' !! "rank" = Some a /\
    AggregateRegister.as_sql a bracket_qn
    = Ok ("ts_rank([article].[fts_index], to_tsquery('english', %s), 1|2)", [sample_params]).
Proof.
  destruct (registered_expression_renders rank_self english_field sample_query "rank"
              sample_col sample_search (sample_where "english") (sample_where "english")
              sample_params)
    as (self' & q' & a & Hrun & _ & Ha & Hsql).
  - unfold attachable. split; [vm_compute; discriminate|repeat split; reflexivity].
  - exists self', q', a. split; [exact Hrun|]. split; [exact Ha|].
    rewrite (Hsql bracket_qn). vm_compute. reflexivity.
Defined.

Lemma explicit_dictionary_used_witness :
  exists self' q' a,
    Aggregate.add_to_query "rank" sample_col english_field (portuguese_self, sample_query)
    = (Ok tt, (self', q')) /\
    Aggregate.dictionary self' = "portuguese" /\
    last (Query.where_children q')
    = Some {| Query.sqls := [sample_where "portuguese"];
              Query.ew_params := [sample_params] |} /\
    Query.aggregates q' !! "rank" = Some a /\
    AggregateRegister.extra a !! "dictionary" = Some (PyStr "portuguese").
Proof.
  destruct (explicit_dictionary_used portuguese_self english_field sample_query "rank"
              sample_col sample_search (sample_where "portuguese")
              (sample_where "portuguese") sample_params)
    as (self' & q' & a & Hrun & Hd & _ & _ & Hw & Ha & Hx & _).
  - discriminate.
  - unfold attachable. split; [reflexivity|repeat split; reflexivity].
  - exists self', q', a. repeat split; assumption.
Defined.

Lemma unknown_lookup_raises_witness :
  Aggregate.add_to_query "rank" sample_col english_field (contains_self, sample_query)
  = (Raise AttributeError,
     (Aggregate.set_dictionary (resolved_dictionary contains_self english_field)
        contains_self, sample_query)).
Proof.
  refine (unknown_lookup_raises contains_self english_field sample_query "rank" sample_col
            _ _).
  - intros H. by destruct H.
  - reflexivity.
Defined.

Lemma failed_attachment_keeps_query_witness :
  (Aggregate.add_to_query "rank" sample_col english_only_field
     (portuguese_self, sample_query)).2.2 = sample_query.
Proof.
  apply failed_attachment_keeps_query. intros u. vm_compute. discriminate.
Defined.

Lemma group_by_stays_duplicate_free_witness :
  NoDup (Query.group_by
           (Aggregate.add_to_query "rank" sample_col english_field
              (rank_self, sample_query)).2.2).
Proof.
  apply group_by_stays_duplicate_free. apply NoDup_singleton.
Defined.

Lemma class_selects_function_only_witness :
  exists s2' q2 a1 a2 d p,
    Aggregate.add_to_query "rank" sample_col english_field
      (with_class FTSRankCd rank_self, sample_query) = (Ok tt, (s2', q2)) /\
    Query.where_children q2
    = [ {| Query.sqls := [sample_where "english"]; Query.ew_params := [sample_params] |} ] /\
    Query.aggregates q2 !! "rank" = Some a2 /\
    AggregateRegister.as_sql a1 bracket_qn
    = Ok (spec_rank_call "ts_rank" "[article].[fts_index]" d ", 1|2", [p]) /\
    AggregateRegister.as_sql a2 bracket_qn
    = Ok (spec_rank_call "ts_rank_cd" "[article].[fts_index]" d ", 1|2", [p]).
Proof.
  destruct (class_selects_function_only rank_self (with_class FTSRankCd rank_self)
              english_field sample_query "rank" sample_col tt
              (attached_self rank_self "english" sample_params)
              (attached_query sample_query "rank" sample_col (sample_where "english")
                 sample_params
                 (registered_expression rank_self english_field sample_col "english"
                    sample_params)))
    as (s2' & q2 & a1 & a2 & d & p & Hrun & Hw & _ & _ & Ha2 & Hsql).
  - reflexivity.
  - reflexivity.
  - reflexivity.
  - reflexivity.
  - vm_compute. reflexivity.
  - exists s2', q2, a1, a2, d, p. split; [exact Hrun|]. split; [exact Hw|].
    split; [exact Ha2|]. apply (Hsql bracket_qn ", 1|2"). vm_compute. reflexivity.
Defined.

Lemma docstring_where_fragment_witness :
  (Aggregate.add_to_query "rank" sample_col english_field (rank_self, sample_query)).1 = Ok tt /\
  Query.where_children
    (Aggregate.add_to_query "rank" sample_col english_field (rank_self, sample_query)).2.2
  = [ {| Query.sqls := [sample_where "english"]; Query.ew_params := [sample_params] |} ].
Proof.
  apply (docstring_where_fragment rank_self english_field sample_query "rank" sample_col
           sample_search sample_params).
  - intros H. by destruct H.
  - reflexivity.
  - reflexivity.
  - reflexivity.
  - reflexivity.
  - reflexivity.
Defined.

End MoreRuns.
